(** * O3SerialWriter: a shallow embedding of [src/O3SerialWriter.h]

    The writer is a line-state machine in front of an Arduino [Stream].
    The embedding keeps the shape of the C++ class:

    - [O3LogLevel] is the [uint8_t] behind the enum class, as a [Z];
    - the two [char] arrays are lists of characters with stale bytes kept,
      and every array store and every C-string read is bounds checked;
    - the [Stream] the writer points to lives in a store of streams, each
      one recorded as the trace of the calls made on it;
    - [millis()] reads a clock that is part of the environment;
    - methods are computations in a state-and-failure monad, where failure
      stands for undefined behaviour (a null [out], an array overrun, a
      string without terminator). *)

From stdpp Require Import base option list gmap strings.
From Stdlib Require Import ZArith Ascii DecimalString Lia.

Local Open Scope Z_scope.

(** ** Log levels *)

(** [enum class O3LogLevel : uint8_t].  A value of the enum is any value of
    its underlying type; the five enumerators are named below. *)
Module O3LogLevel.
Definition t : Type := Z.
Definition Debug : t := 0.
Definition Info : t := 1.
Definition Warn : t := 2.
Definition Error : t := 3.
Definition None : t := 255.

(** The values a [uint8_t] can hold. *)
Definition is_uint8 (l : t) : Prop := 0 <= l <= 255.
End O3LogLevel.

(** ** C strings and fixed character arrays *)

Definition NUL : ascii := Ascii.zero.

Definition is_nul (c : ascii) : bool := Ascii.eqb c NUL.

(** A [const char*] argument: a null pointer, or the characters found at the
    pointer, with the terminator of the C string right after the last one. *)
Definition c_ptr : Type := option string.

(** [c_str mem] reads a C string out of a character array: the characters
    before the first terminator.  An array without terminator makes the
    reader run past its end, which is [None]. *)
Fixpoint c_str (mem : list ascii) : option string :=
  match mem with
  | [] => None
  | c :: mem' =>
      if is_nul c then Some EmptyString
      else match c_str mem' with
           | Some s => Some (String c s)
           | None => None
           end
  end.

(** [buf[i] = c], refused outside the array. *)
Definition store (i : nat) (c : ascii) (buf : list ascii) : option (list ascii) :=
  if decide (i < length buf)%nat then Some (<[i := c]> buf) else None.

(** The loop shared by [copyPrefix] and [copyPartSeparator]:
    [for (; i + 1 < cap && value[i] != '\0'; i++) buf[i] = value[i];]
    The first argument is what is left of [value] from index [i] on, so its
    head is [value[i]] and its end is the terminator.  It returns the final
    [i] and the array. *)
Fixpoint copy_loop (cap : nat) (value : string) (i : nat) (buf : list ascii)
  : option (nat * list ascii) :=
  match value with
  | EmptyString => Some (i, buf)
  | String c rest =>
      if bool_decide (i + 1 < cap)%nat && negb (is_nul c) then
        match store i c buf with
        | Some buf' => copy_loop cap rest (i + 1)%nat buf'
        | None => None
        end
      else Some (i, buf)
  end.

(** The loop followed by [buf[i] = '\0']. *)
Definition copy_bounded (cap : nat) (value : string) (buf : list ascii)
  : option (list ascii) :=
  match copy_loop cap value 0%nat buf with
  | Some (i, buf') => store i NUL buf'
  | None => None
  end.

Definition prefixMaxLen : nat := 32.
Definition partSepMaxLen : nat := 8.

(** ** The output stream and the clock *)

(** What [Print::print] is handed: text, a single character, or a number. *)
Inductive Printable : Type :=
  | PStr (s : string)
  | PChar (c : ascii)
  | PNum (n : Z).

(** A call made on a stream.  [out->println(v)] is Arduino's
    [print(v)] followed by [println()], so it is recorded as two calls. *)
Inductive SinkCall : Type :=
  | Print (v : Printable)
  | Println
  | SerialBegin (baud : Z).

#[global] Instance Printable_eq_dec : EqDecision Printable.
Proof. solve_decision. Defined.

#[global] Instance SinkCall_eq_dec : EqDecision SinkCall.
Proof. solve_decision. Defined.

Definition is_println (c : SinkCall) : bool :=
  match c with Println => true | _ => false end.

(** The environment: what each stream has received so far, and the value
    [millis()] returns now. *)
Record World : Type := mkWorld {
  streams : gmap nat (list SinkCall);
  clock : Z
}.

Definition written (W : World) (p : nat) : list SinkCall :=
  default [] (streams W !! p).

(** Stream [p] receives the calls [cs], in this order. *)
Definition emit (p : nat) (cs : list SinkCall) (W : World) : World :=
  match cs with
  | [] => W
  | _ => {| streams := <[p := written W p ++ cs]> (streams W);
            clock := clock W |}
  end.

(** Time passes: [millis()] is an [unsigned long] that wraps at [2^32]. *)
Definition elapse (d : Z) (W : World) : World :=
  {| streams := streams W; clock := (clock W + d) mod 2 ^ 32 |}.

(** The bytes a stream puts on the wire for a trace of calls. *)
Definition render_num (n : Z) : string :=
  NilZero.string_of_int (Z.to_int n).

Definition render_value (v : Printable) : string :=
  match v with
  | PStr s => s
  | PChar c => String c EmptyString
  | PNum n => render_num n
  end.

Definition line_break : string := String "013"%char (String "010"%char EmptyString).

Definition render_call (c : SinkCall) : string :=
  match c with
  | Print v => render_value v
  | Println => line_break
  | SerialBegin _ => EmptyString
  end.

Fixpoint render (cs : list SinkCall) : string :=
  match cs with
  | [] => EmptyString
  | c :: cs' => render_call c +:+ render cs'
  end.

(** ** The writer *)

Record O3SerialWriterOptions : Type := mkOptions {
  opt_prefix : c_ptr;
  opt_showMillis : bool;
  opt_showLevel : bool;
  opt_minLevel : O3LogLevel.t;
  opt_partSeparator : c_ptr
}.

(** The default member initialisers of the struct. *)
Definition defaultOptions : O3SerialWriterOptions :=
  {| opt_prefix := Some EmptyString;
     opt_showMillis := true;
     opt_showLevel := true;
     opt_minLevel := O3LogLevel.Debug;
     opt_partSeparator := Some " " |}.

Record O3SerialWriter : Type := mkWriter {
  out : option nat;
  enabled : bool;
  showMillis : bool;
  showLevel : bool;
  minLevel : O3LogLevel.t;
  defaultLevel : O3LogLevel.t;
  lineOpen : bool;
  activeLevel : O3LogLevel.t;
  prefixBuffer : list ascii;
  partSeparatorBuffer : list ascii
}.

(** [O3SerialWriter() = default]: the member initialisers of the class. *)
Definition newWriter : O3SerialWriter :=
  {| out := None;
     enabled := true;
     showMillis := true;
     showLevel := true;
     minLevel := O3LogLevel.Debug;
     defaultLevel := O3LogLevel.Info;
     lineOpen := false;
     activeLevel := O3LogLevel.Info;
     prefixBuffer := replicate prefixMaxLen NUL;
     partSeparatorBuffer := " "%char :: replicate (partSepMaxLen - 1) NUL |}.

(** Member assignments. *)
Definition set_out (v : option nat) (w : O3SerialWriter) : O3SerialWriter :=
  mkWriter v (enabled w) (showMillis w) (showLevel w) (minLevel w)
    (defaultLevel w) (lineOpen w) (activeLevel w) (prefixBuffer w)
    (partSeparatorBuffer w).
Definition set_enabled (v : bool) (w : O3SerialWriter) : O3SerialWriter :=
  mkWriter (out w) v (showMillis w) (showLevel w) (minLevel w)
    (defaultLevel w) (lineOpen w) (activeLevel w) (prefixBuffer w)
    (partSeparatorBuffer w).
Definition set_showMillis (v : bool) (w : O3SerialWriter) : O3SerialWriter :=
  mkWriter (out w) (enabled w) v (showLevel w) (minLevel w)
    (defaultLevel w) (lineOpen w) (activeLevel w) (prefixBuffer w)
    (partSeparatorBuffer w).
Definition set_showLevel (v : bool) (w : O3SerialWriter) : O3SerialWriter :=
  mkWriter (out w) (enabled w) (showMillis w) v (minLevel w)
    (defaultLevel w) (lineOpen w) (activeLevel w) (prefixBuffer w)
    (partSeparatorBuffer w).
Definition set_minLevel (v : O3LogLevel.t) (w : O3SerialWriter) : O3SerialWriter :=
  mkWriter (out w) (enabled w) (showMillis w) (showLevel w) v
    (defaultLevel w) (lineOpen w) (activeLevel w) (prefixBuffer w)
    (partSeparatorBuffer w).
Definition set_lineOpen (v : bool) (w : O3SerialWriter) : O3SerialWriter :=
  mkWriter (out w) (enabled w) (showMillis w) (showLevel w) (minLevel w)
    (defaultLevel w) v (activeLevel w) (prefixBuffer w)
    (partSeparatorBuffer w).
Definition set_activeLevel (v : O3LogLevel.t) (w : O3SerialWriter) : O3SerialWriter :=
  mkWriter (out w) (enabled w) (showMillis w) (showLevel w) (minLevel w)
    (defaultLevel w) (lineOpen w) v (prefixBuffer w)
    (partSeparatorBuffer w).
Definition set_prefixBuffer (v : list ascii) (w : O3SerialWriter) : O3SerialWriter :=
  mkWriter (out w) (enabled w) (showMillis w) (showLevel w) (minLevel w)
    (defaultLevel w) (lineOpen w) (activeLevel w) v
    (partSeparatorBuffer w).
Definition set_partSeparatorBuffer (v : list ascii) (w : O3SerialWriter) : O3SerialWriter :=
  mkWriter (out w) (enabled w) (showMillis w) (showLevel w) (minLevel w)
    (defaultLevel w) (lineOpen w) (activeLevel w) (prefixBuffer w) v.

(** ** The monad of method bodies *)

Record Machine : Type := mkMachine {
  self : O3SerialWriter;
  world : World
}.

(** A method body: it reads and updates the object and the environment, and
    [None] is undefined behaviour. *)
Definition M (A : Type) : Type := Machine -> option (A * Machine).

#[global] Instance M_ret : MRet M := fun A (a : A) m => Some (a, m).
#[global] Instance M_bind : MBind M := fun A B (f : A -> M B) (c : M A) m =>
  match c m with
  | Some (a, m') => f a m'
  | None => None
  end.

Definition this : M O3SerialWriter := fun m => Some (self m, m).

Definition assign (f : O3SerialWriter -> O3SerialWriter) : M unit :=
  fun m => Some (tt, mkMachine (f (self m)) (world m)).

Definition lift {A : Type} (o : option A) : M A :=
  fun m => match o with Some a => Some (a, m) | None => None end.

(** A call through [out]: undefined when [out] is null. *)
Definition out_call (c : SinkCall) : M unit :=
  fun m => match out (self m) with
           | Some p => Some (tt, mkMachine (self m) (emit p [c] (world m)))
           | None => None
           end.

Definition out_print (v : Printable) : M unit := out_call (Print v).
Definition out_println : M unit := out_call Println.
Definition out_println_value (v : Printable) : M unit :=
  out_print v ;; out_println.

Definition millis : M Z := fun m => Some (clock (world m), m).

Definition skip : M unit := mret tt.

(** ** Private methods *)

(** [value[0]]: the first character at the pointer, the terminator if the
    string is empty. *)
Definition first_char (s : string) : ascii :=
  match s with
  | EmptyString => NUL
  | String c _ => c
  end.

Definition copyPrefix (value : c_ptr) : M unit :=
  let value := match value with
               | Some s => s
               | None => EmptyString
               end in
  w ← this;
  buf ← lift (copy_bounded prefixMaxLen value (prefixBuffer w));
  assign (set_prefixBuffer buf).

Definition copyPartSeparator (value : c_ptr) : M unit :=
  let value := match value with
               | Some s => if is_nul (first_char s) then " " else s
               | None => " "
               end in
  w ← this;
  buf ← lift (copy_bounded partSepMaxLen value (partSeparatorBuffer w));
  assign (set_partSeparatorBuffer buf).

Definition resetLineState : M unit :=
  assign (set_lineOpen false);;
  w ← this;
  assign (set_activeLevel (defaultLevel w)).

(** A [const] method: it only reads the object. *)
Definition canWrite (w : O3SerialWriter) (level : O3LogLevel.t) : bool :=
  if negb (enabled w) then false
  else if negb (bool_decide (is_Some (out w))) then false
  else if minLevel w =? O3LogLevel.None then false
  else level >=? minLevel w.

Definition levelText (level : O3LogLevel.t) : string :=
  if level =? O3LogLevel.Debug then "DEBUG"
  else if level =? O3LogLevel.Info then "INFO"
  else if level =? O3LogLevel.Warn then "WARN"
  else if level =? O3LogLevel.Error then "ERROR"
  else "LOG".

Definition writeHeader (level : O3LogLevel.t) : M unit :=
  w ← this;
  c0 ← lift (prefixBuffer w !! 0%nat);
  (if negb (is_nul c0) then
     out_print (PChar "[");;
     s ← lift (c_str (prefixBuffer w));
     out_print (PStr s);;
     out_print (PStr "] ")
   else skip);;
  (if showMillis w then
     t ← millis;
     out_print (PNum t);;
     out_print (PChar " ")
   else skip);;
  (if showLevel w then
     out_print (PStr (levelText level));;
     out_print (PStr ": ")
   else skip).

Definition ensureLineHeader (level : O3LogLevel.t) : M unit :=
  w ← this;
  if negb (lineOpen w) then
    assign (set_activeLevel level);;
    writeHeader level;;
    assign (set_lineOpen true)
  else if negb (level =? activeLevel w) then
    out_println;;
    resetLineState;;
    assign (set_activeLevel level);;
    writeHeader level;;
    assign (set_lineOpen true)
  else skip.

Definition line (level : O3LogLevel.t) (message : string) : M unit :=
  w ← this;
  if negb (canWrite w level) then skip
  else
    ensureLineHeader level;;
    out_println_value (PStr message);;
    resetLineState.

Definition writePart (value : Printable) : M unit := out_print value.

(** The parameter pack is the list [rest]; [sizeof...(rest) > 0] is the
    list being a cons. *)
Fixpoint writeParts (first : Printable) (rest : list Printable) : M unit :=
  writePart first;;
  match rest with
  | [] => skip
  | r :: rest' =>
      w ← this;
      s ← lift (c_str (partSeparatorBuffer w));
      out_print (PStr s);;
      writeParts r rest'
  end.

Definition parts (level : O3LogLevel.t) (first : Printable)
    (rest : list Printable) : M unit :=
  w ← this;
  if negb (canWrite w level) then skip
  else
    ensureLineHeader level;;
    writeParts first rest;;
    out_println;;
    resetLineState.

(** ** Public methods *)

Definition configure (options : O3SerialWriterOptions) : M unit :=
  copyPrefix (opt_prefix options);;
  copyPartSeparator (opt_partSeparator options);;
  assign (set_showMillis (opt_showMillis options));;
  assign (set_showLevel (opt_showLevel options));;
  assign (set_minLevel (opt_minLevel options));;
  resetLineState.

(** [begin(Stream&, options)]; the stream is named by its place in the
    store. *)
Definition begin (stream : nat) (options : O3SerialWriterOptions) : M unit :=
  assign (set_out (Some stream));;
  configure options.

(** [begin(HardwareSerial&, baud, options)]: the port is opened by a call on
    the port itself, not through [out]. *)
Definition beginSerial (serialPort : nat) (baud : Z)
    (options : O3SerialWriterOptions) : M unit :=
  (fun m => Some (tt, mkMachine (self m)
                        (emit serialPort [SerialBegin baud] (world m))));;
  begin serialPort options.

Definition setPrefix (newPrefix : c_ptr) : M unit := copyPrefix newPrefix.
Definition setMinLevel (level : O3LogLevel.t) : M unit :=
  assign (set_minLevel level).
Definition setPartSeparator (value : c_ptr) : M unit :=
  copyPartSeparator value.

Definition setEnabled (isEnabled : bool) : M unit :=
  assign (set_enabled isEnabled);;
  w ← this;
  if negb (enabled w) then resetLineState else skip.

Definition isEnabled (w : O3SerialWriter) : bool := enabled w.

Definition printWithLevel (level : O3LogLevel.t) (value : Printable) : M unit :=
  w ← this;
  if negb (canWrite w level) then skip
  else
    ensureLineHeader level;;
    out_print value.

Definition printlnWithLevel (level : O3LogLevel.t) (value : Printable) : M unit :=
  w ← this;
  if negb (canWrite w level) then skip
  else
    ensureLineHeader level;;
    out_println_value value;;
    resetLineState.

Definition print (value : Printable) : M unit :=
  w ← this;
  printWithLevel (defaultLevel w) value.

Definition println (value : Printable) : M unit :=
  w ← this;
  printlnWithLevel (defaultLevel w) value.

Definition println0 : M unit :=
  w ← this;
  if negb (canWrite w (defaultLevel w)) then skip
  else
    ensureLineHeader (defaultLevel w);;
    out_println;;
    resetLineState.

Definition debug (message : string) : M unit := line O3LogLevel.Debug message.
Definition info (message : string) : M unit := line O3LogLevel.Info message.
Definition warn (message : string) : M unit := line O3LogLevel.Warn message.
Definition error (message : string) : M unit := line O3LogLevel.Error message.

Definition debugParts (first : Printable) (rest : list Printable) : M unit :=
  parts O3LogLevel.Debug first rest.
Definition infoParts (first : Printable) (rest : list Printable) : M unit :=
  parts O3LogLevel.Info first rest.
Definition warnParts (first : Printable) (rest : list Printable) : M unit :=
  parts O3LogLevel.Warn first rest.
Definition errorParts (first : Printable) (rest : list Printable) : M unit :=
  parts O3LogLevel.Error first rest.

(** ** Programs that use the writer *)

(** One thing a sketch does with its writer, or time passing between two
    calls. *)
Inductive Call : Type :=
  | CBeginSerial (port : nat) (baud : Z) (options : O3SerialWriterOptions)
  | CBegin (stream : nat) (options : O3SerialWriterOptions)
  | CConfigure (options : O3SerialWriterOptions)
  | CSetPrefix (newPrefix : c_ptr)
  | CSetMinLevel (level : O3LogLevel.t)
  | CSetPartSeparator (value : c_ptr)
  | CSetEnabled (isEnabled : bool)
  | CPrint (value : Printable)
  | CPrintlnValue (value : Printable)
  | CPrintln
  | CPrintWithLevel (level : O3LogLevel.t) (value : Printable)
  | CPrintlnWithLevel (level : O3LogLevel.t) (value : Printable)
  | CDebug (message : string)
  | CInfo (message : string)
  | CWarn (message : string)
  | CError (message : string)
  | CDebugParts (first : Printable) (rest : list Printable)
  | CInfoParts (first : Printable) (rest : list Printable)
  | CWarnParts (first : Printable) (rest : list Printable)
  | CErrorParts (first : Printable) (rest : list Printable)
  | CElapse (d : Z).

Definition call (c : Call) : M unit :=
  match c with
  | CBeginSerial port baud options => beginSerial port baud options
  | CBegin stream options => begin stream options
  | CConfigure options => configure options
  | CSetPrefix newPrefix => setPrefix newPrefix
  | CSetMinLevel level => setMinLevel level
  | CSetPartSeparator value => setPartSeparator value
  | CSetEnabled isEnabled => setEnabled isEnabled
  | CPrint value => print value
  | CPrintlnValue value => println value
  | CPrintln => println0
  | CPrintWithLevel level value => printWithLevel level value
  | CPrintlnWithLevel level value => printlnWithLevel level value
  | CDebug message => debug message
  | CInfo message => info message
  | CWarn message => warn message
  | CError message => error message
  | CDebugParts first rest => debugParts first rest
  | CInfoParts first rest => infoParts first rest
  | CWarnParts first rest => warnParts first rest
  | CErrorParts first rest => errorParts first rest
  | CElapse d => fun m => Some (tt, mkMachine (self m) (elapse d (world m)))
  end.

Fixpoint run (cs : list Call) : M unit :=
  match cs with
  | [] => skip
  | c :: cs' => call c;; run cs'
  end.

(** The final machine of a computation, when it has one. *)
Definition exec {A : Type} (c : M A) (m : Machine) : option Machine :=
  snd <$> c m.

(** A machine with a newly constructed writer in some environment. *)
Definition boot (W : World) : Machine := mkMachine newWriter W.

Definition emptyWorld : World := mkWorld ∅ 0.

#[global] Arguments emit : simpl never.

(** ** What the specification says, as definitions to compare with *)

(** The characters of a C string argument: those before the first
    terminator. *)
Fixpoint until_nul (s : string) : string :=
  match s with
  | EmptyString => EmptyString
  | String c rest => if is_nul c then EmptyString else String c (until_nul rest)
  end.

(** The first [n] characters of a string. *)
Fixpoint truncate (n : nat) (s : string) : string :=
  match n, s with
  | S n', String c rest => String c (truncate n' rest)
  | _, _ => EmptyString
  end.

Fixpoint chars (s : string) : list ascii :=
  match s with
  | EmptyString => []
  | String c rest => c :: chars rest
  end.

Fixpoint nul_free (s : string) : bool :=
  match s with
  | EmptyString => true
  | String c rest => negb (is_nul c) && nul_free rest
  end.

(** The header of a line, in the order the specification gives:
    the bracketed prefix when there is one, the timestamp and a space when
    shown, the severity label and [": "] when shown. *)
Definition header_spec (pfx : string) (withMillis withLevel : bool) (t : Z)
    (level : O3LogLevel.t) : list SinkCall :=
  (match pfx with
   | EmptyString => []
   | _ => [Print (PChar "["); Print (PStr pfx); Print (PStr "] ")]
   end)
  ++ (if withMillis then [Print (PNum t); Print (PChar " ")] else [])
  ++ (if withLevel then [Print (PStr (levelText level)); Print (PStr ": ")]
      else []).

(** The text of a header. *)
Definition header_text (pfx : string) (withMillis withLevel : bool) (t : Z)
    (level : O3LogLevel.t) : string :=
  (match pfx with
   | EmptyString => ""
   | _ => "[" +:+ pfx +:+ "] "
   end)
  +:+ (if withMillis then render_num t +:+ " " else "")
  +:+ (if withLevel then levelText level +:+ ": " else "").

(** Parts joined by the separator: the first part, then the separator and a
    part for every further one. *)
Definition join_spec (sep : string) (first : Printable)
    (rest : list Printable) : list SinkCall :=
  Print first :: flat_map (fun v => [Print (PStr sep); Print v]) rest.

(** The writer with its line state reset. *)
Definition closed (w : O3SerialWriter) : O3SerialWriter :=
  set_activeLevel (defaultLevel w) (set_lineOpen false w).

(** The writer with a line open at [level]. *)
Definition opened (level : O3LogLevel.t) (w : O3SerialWriter) : O3SerialWriter :=
  set_lineOpen true (set_activeLevel level w).

(** What [ensureLineHeader] sends to the stream in each of its three cases:
    a header on a closed line, nothing on a line open at the same level, a
    line break and a header on a line open at another level. *)
Definition ensure_calls (w : O3SerialWriter) (pfx : string) (t : Z)
    (level : O3LogLevel.t) : list SinkCall :=
  let header := header_spec pfx (showMillis w) (showLevel w) t level in
  if negb (lineOpen w) then header
  else if negb (level =? activeLevel w) then Println :: header
  else [].

(** The argument [copyPrefix] copies from: a null pointer reads as the empty
    string. *)
Definition prefix_arg (value : c_ptr) : string :=
  match value with
  | Some s => s
  | None => EmptyString
  end.

(** The argument [copyPartSeparator] copies from: a null pointer and an
    empty string read as one space. *)
Definition separator_arg (value : c_ptr) : string :=
  match value with
  | Some s => if is_nul (first_char s) then " " else s
  | None => " "
  end.

(** The sizes of the two arrays, which the C++ types fix, and the presence
    of a terminator in each. *)
Definition buffers_ok (w : O3SerialWriter) : Prop :=
  length (prefixBuffer w) = prefixMaxLen
  /\ length (partSeparatorBuffer w) = partSepMaxLen
  /\ is_Some (c_str (prefixBuffer w))
  /\ is_Some (c_str (partSeparatorBuffer w)).

(** The writer after [configure]: new arrays, new toggles and threshold, the
    line state reset. *)
Definition configured (pbuf sbuf : list ascii)
    (options : O3SerialWriterOptions) (w : O3SerialWriter) : O3SerialWriter :=
  mkWriter (out w) (enabled w) (opt_showMillis options)
    (opt_showLevel options) (opt_minLevel options) (defaultLevel w)
    false (defaultLevel w) pbuf sbuf.

(** The invariant of the line state: an open line has its header, written
    for [activeLevel] with the toggles still in force, on the stream [out]
    points to, and only calls other than a line break after it. *)
Definition line_invariant (m : Machine) : Prop :=
  lineOpen (self m) = true ->
  exists p pre pfx t payload,
    out (self m) = Some p
    /\ written (world m) p
       = pre ++ header_spec pfx (showMillis (self m)) (showLevel (self m)) t
                  (activeLevel (self m)) ++ payload
    /\ Forall (fun c => is_println c = false) payload.

(** What every reachable machine satisfies. *)
Definition machine_ok (m : Machine) : Prop :=
  buffers_ok (self m)
  /\ defaultLevel (self m) = O3LogLevel.Info
  /\ line_invariant m.

(** A line assembled by hand: values printed at one level, with time passing
    after each. *)
Definition assemble (level : O3LogLevel.t) (steps : list (Printable * Z))
  : list Call :=
  flat_map (fun s => [CPrintWithLevel level (fst s); CElapse (snd s)]) steps.

(** The calls that end a line when the gate lets them through. *)
Definition terminates_line (c : Call) : bool :=
  match c with
  | CPrintlnValue _ | CPrintln | CPrintlnWithLevel _ _
  | CDebug _ | CInfo _ | CWarn _ | CError _
  | CDebugParts _ _ | CInfoParts _ _ | CWarnParts _ _ | CErrorParts _ _ => true
  | _ => false
  end.

(** The calls that configure the writer as a whole. *)
Definition reconfigures (c : Call) : bool :=
  match c with
  | CBeginSerial _ _ _ | CBegin _ _ | CConfigure _ => true
  | _ => false
  end.

(** The machines a program can get to: any run of calls on a newly
    constructed writer, in any environment. *)
Definition reachable (m : Machine) : Prop :=
  exists W cs, run cs (boot W) = Some (tt, m).

(** A writer attached to stream 0 with the default options, at time 0 and
    with nothing written yet. *)
Definition attachedDefault : Machine :=
  default (boot emptyWorld)
    (exec (begin 0%nat defaultOptions) (boot emptyWorld)).

(** The same writer with a line left open by [printWithLevel(Info, "a")]. *)
Definition midLine : Machine :=
  default attachedDefault
    (exec (printWithLevel O3LogLevel.Info (PStr "a")) attachedDefault).

(** The machine [d] milliseconds later. *)
Definition later (d : Z) (m : Machine) : Machine :=
  mkMachine (self m) (elapse d (world m)).

(** What a stream holds after a step beyond what it held before. *)
Definition output_since (p : nat) (before after : Machine) : list SinkCall :=
  drop (length (written (world before) p)) (written (world after) p).

(** ** Programs of sketches *)

(** The calls that attach the writer to a stream. *)
Definition attaches (c : Call) : bool :=
  match c with
  | CBeginSerial _ _ _ | CBegin _ _ => true
  | _ => false
  end.

(** The level of a one-call log method: [debug], [info], [warn], [error],
    with a message or with parts. *)
Definition log_level (c : Call) : option O3LogLevel.t :=
  match c with
  | CDebug _ | CDebugParts _ _ => Some O3LogLevel.Debug
  | CInfo _ | CInfoParts _ _ => Some O3LogLevel.Info
  | CWarn _ | CWarnParts _ _ => Some O3LogLevel.Warn
  | CError _ | CErrorParts _ _ => Some O3LogLevel.Error
  | _ => None
  end.

(** A log call that the gate of [w] lets through. *)
Definition passes (w : O3SerialWriter) (c : Call) : bool :=
  match log_level c with
  | Some level => canWrite w level
  | None => false
  end.

(** The number of line breaks in a trace. *)
Definition count_println (cs : list SinkCall) : nat :=
  length (List.filter is_println cs).

(** The number of places in a list of levels where the level differs from
    the one before. *)
Fixpoint level_changes (levels : list O3LogLevel.t) : nat :=
  match levels with
  | l1 :: tl =>
      match tl with
      | l2 :: _ => ((if Z.eqb l1 l2 then 0 else 1) + level_changes tl)%nat
      | [] => 0%nat
      end
  | [] => 0%nat
  end.

(** A sketch that prints a list of values, each at its own level. *)
Definition printAll (steps : list (O3LogLevel.t * Printable)) : list Call :=
  map (fun s => CPrintWithLevel (fst s) (snd s)) steps.

(** What a stream should get from values printed each at its own level,
    given the header of each level: with a line open at [prev], a value at
    the same level comes alone, and a value at another level comes after a
    line break and the header of its level. *)
Fixpoint levels_trace (header : O3LogLevel.t -> list SinkCall)
    (prev : O3LogLevel.t) (steps : list (O3LogLevel.t * Printable))
  : list SinkCall :=
  match steps with
  | [] => []
  | s :: rest =>
      (if Z.eqb prev (fst s) then [] else Println :: header (fst s))
      ++ [Print (snd s)] ++ levels_trace header (fst s) rest
  end.

(** The same with no line open at the start: the first value comes after
    the header of its level and no line break. *)
Definition printAll_trace (header : O3LogLevel.t -> list SinkCall)
    (steps : list (O3LogLevel.t * Printable)) : list SinkCall :=
  match steps with
  | [] => []
  | s :: rest =>
      header (fst s) ++ [Print (snd s)] ++ levels_trace header (fst s) rest
  end.

(** A line put together by hand, as the README shows it: every further
    value is printed after the separator text. *)
Fixpoint printEach (sep : string) (rest : list Printable) : M unit :=
  match rest with
  | [] => skip
  | r :: rest' => print (PStr sep);; print r;; printEach sep rest'
  end.

Definition printManually (sep : string) (first : Printable)
    (rest : list Printable) : M unit :=
  print first;; printEach sep rest;; println0.

(** * Properties *)

(** ** The store of streams *)

Lemma written_emit_eq p cs W : written (emit p cs W) p = written W p ++ cs.
Proof.
  destruct cs as [|c cs]; simpl.
  - by rewrite app_nil_r.
  - unfold written at 1; simpl. by rewrite lookup_insert_eq.
Qed.

Lemma written_emit_ne p q cs W : p ≠ q -> written (emit p cs W) q = written W q.
Proof.
  intros Hpq. destruct cs as [|c cs]; simpl; [done|].
  unfold written at 1; simpl. by rewrite lookup_insert_ne.
Qed.

Lemma clock_emit p cs W : clock (emit p cs W) = clock W.
Proof. by destruct cs. Qed.

Lemma emit_nil p W : emit p [] W = W.
Proof. done. Qed.

Lemma emit_emit p cs1 cs2 W : emit p cs2 (emit p cs1 W) = emit p (cs1 ++ cs2) W.
Proof.
  destruct cs2 as [|c2 cs2]; [by rewrite app_nil_r|].
  destruct cs1 as [|c1 cs1]; [done|].
  unfold emit at 1. rewrite written_emit_eq. simpl.
  by rewrite insert_insert_eq, <- app_assoc.
Qed.

Lemma output_since_emit p cs w w' W :
  output_since p (mkMachine w W) (mkMachine w' (emit p cs W)) = cs.
Proof.
  unfold output_since; simpl. rewrite written_emit_eq.
  by rewrite drop_app_length.
Qed.

(** ** C strings and the bounded copy *)

Section Buffers.

Implicit Types (s value : string) (buf : list ascii) (c : ascii).

Lemma is_nul_true c : is_nul c = true <-> c = NUL.
Proof. unfold is_nul. apply Ascii.eqb_eq. Qed.

Lemma length_chars_truncate n s :
  (length (chars (truncate n s)) <= n)%nat.
Proof.
  revert s; induction n as [|n IH]; intros [|c s]; simpl; try lia.
  specialize (IH s). lia.
Qed.

Lemma length_chars_truncate_full n s :
  (n <= length (chars s))%nat -> length (chars (truncate n s)) = n.
Proof.
  revert s; induction n as [|n IH]; intros [|c s]; simpl; try lia.
  intros H. rewrite IH; lia.
Qed.

Lemma truncate_all n s :
  (length (chars s) <= n)%nat -> truncate n s = s.
Proof.
  revert s; induction n as [|n IH]; intros [|c s]; simpl; try done; try lia.
  intros H. rewrite IH; [done | lia].
Qed.

Lemma until_nul_free s : nul_free s = true -> until_nul s = s.
Proof.
  induction s as [|c s IH]; simpl; [done|].
  destruct (is_nul c); simpl; [done|]. intros H. by rewrite IH.
Qed.

Lemma nul_free_until_nul s : nul_free (until_nul s) = true.
Proof.
  induction s as [|c s IH]; simpl; [done|].
  destruct (is_nul c) eqn:E; simpl; [done|]. by rewrite E.
Qed.

Lemma nul_free_truncate n s :
  nul_free s = true -> nul_free (truncate n s) = true.
Proof.
  revert s; induction n as [|n IH]; intros [|c s]; simpl; try done.
  intros [Hc Hs]%andb_prop. rewrite Hc. simpl. by apply IH.
Qed.

(** Reading back what was laid out as characters, terminator, rest. *)
Lemma c_str_chars s rest :
  nul_free s = true -> c_str (chars s ++ NUL :: rest) = Some s.
Proof.
  induction s as [|c s IH]; simpl; [done|].
  intros [Hc Hs]%andb_prop. apply negb_true_iff in Hc.
  rewrite Hc. by rewrite IH.
Qed.

(** A string that can be read has a terminator inside the array. *)
Lemma c_str_terminated buf s :
  c_str buf = Some s ->
  buf !! length (chars s) = Some NUL /\ (length (chars s) < length buf)%nat.
Proof.
  revert s; induction buf as [|c buf IH]; intros s; simpl; [done|].
  destruct (is_nul c) eqn:E.
  - intros [= <-]. simpl. apply is_nul_true in E. subst. split; [done | lia].
  - destruct (c_str buf) as [s'|]; [|done].
    intros [= <-]. simpl. destruct (IH s' eq_refl). split; [done | lia].
Qed.

Lemma store_in_range i c buf :
  (i < length buf)%nat -> store i c buf = Some (<[i := c]> buf).
Proof. intros H. unfold store. by rewrite decide_True. Qed.

(** The loop invariant of the copy: on exit the array holds, from [i] on,
    as many characters of [value] as fit before the last slot. *)
Lemma copy_loop_spec cap value i buf :
  length buf = cap -> (i < cap)%nat ->
  let cs := chars (truncate (cap - 1 - i) (until_nul value)) in
  copy_loop cap value i buf
  = Some ((i + length cs)%nat,
          take i buf ++ cs ++ drop (i + length cs) buf).
Proof.
  revert i buf; induction value as [|c rest IH]; intros i buf Hlen Hi; simpl.
  - destruct (cap - 1 - i)%nat; simpl;
      by rewrite Nat.add_0_r, take_drop.
  - destruct (is_nul c) eqn:Ec; simpl.
    + rewrite andb_false_r.
      destruct (cap - 1 - i)%nat; simpl;
        by rewrite Nat.add_0_r, take_drop.
    + rewrite andb_true_r. case_bool_decide as Hlt.
      * rewrite store_in_range by lia.
        rewrite IH by (rewrite ?length_insert; lia).
        replace (cap - 1 - i)%nat with (S (cap - 1 - (i + 1))) by lia.
        simpl. f_equal. f_equal; [lia|].
        set (cs := chars (truncate (cap - 1 - (i + 1)) (until_nul rest))).
        rewrite Nat.add_1_r.
        rewrite take_S_r with (x := c)
          by (apply list_lookup_insert_eq; lia).
        rewrite take_insert_ge by lia.
        rewrite drop_insert_lt by lia.
        rewrite <- app_assoc. simpl.
        by rewrite Nat.add_succ_r.
      * replace (cap - 1 - i)%nat with 0%nat by lia. simpl.
        by rewrite Nat.add_0_r, take_drop.
Qed.

(** The copy never leaves the array, keeps its size, and leaves in it the
    argument cut to [cap - 1] characters, with its terminator. *)
Lemma copy_bounded_spec cap value buf :
  length buf = cap -> (0 < cap)%nat ->
  exists buf',
    copy_bounded cap value buf = Some buf'
    /\ length buf' = cap
    /\ c_str buf' = Some (truncate (cap - 1) (until_nul value))
    /\ buf' !! length (chars (truncate (cap - 1) (until_nul value)))
       = Some NUL.
Proof.
  intros Hlen Hcap. unfold copy_bounded.
  rewrite copy_loop_spec by lia. simpl. rewrite Nat.sub_0_r.
  set (s := truncate (cap - 1) (until_nul value)).
  pose proof (length_chars_truncate (cap - 1) (until_nul value)) as Hs.
  fold s in Hs.
  assert (Hfree : nul_free s = true)
    by apply nul_free_truncate, nul_free_until_nul.
  rewrite store_in_range
    by (rewrite length_app, length_drop; lia).
  eexists; split; [done|].
  assert (Hshape : <[length (chars s) := NUL]> (chars s ++ drop (length (chars s)) buf)
                   = chars s ++ NUL :: drop (S (length (chars s))) buf).
  { rewrite insert_app_r_alt by lia. rewrite Nat.sub_diag.
    destruct (drop (length (chars s)) buf) as [|x xs] eqn:E.
    - apply (f_equal length) in E. rewrite length_drop in E. simpl in E. lia.
    - simpl. do 2 f_equal.
      change xs with (drop 1 (x :: xs)). rewrite <- E, drop_drop.
      f_equal. lia. }
  rewrite Hshape. split; [|split].
  - rewrite length_app. simpl. rewrite length_drop. lia.
  - by apply c_str_chars.
  - rewrite lookup_app_r by lia. by rewrite Nat.sub_diag.
Qed.

End Buffers.

(** ** Running the methods *)

(** Unfold the monad and the primitive steps of method bodies. *)
Ltac msimpl :=
  unfold out_println_value, out_print, out_println, writePart, skip;
  unfold mbind, M_bind, mret, M_ret, this, assign, lift, out_call, millis;
  simpl.

(** Run straight-line calls through [out], knowing where it points. *)
Ltac mrun Hout := repeat progress (msimpl; rewrite ?Hout; simpl).

Section Methods.

Implicit Types (w : O3SerialWriter) (W : World) (level : O3LogLevel.t).

Lemma closed_opened level w : closed (opened level w) = closed w.
Proof. by destruct w. Qed.

Lemma opened_same level w :
  lineOpen w = true -> activeLevel w = level -> opened level w = w.
Proof. destruct w; simpl. by intros -> ->. Qed.

Lemma opened_closed level w : opened level (closed w) = opened level w.
Proof. by destruct w. Qed.

Lemma buffers_ok_closed w : buffers_ok w -> buffers_ok (closed w).
Proof. by destruct w. Qed.

Lemma buffers_ok_opened level w : buffers_ok w -> buffers_ok (opened level w).
Proof. by destruct w. Qed.

Lemma buffers_ok_new : buffers_ok newWriter.
Proof. repeat split; simpl; eauto. Qed.

Lemma canWrite_true_inv w level :
  canWrite w level = true ->
  enabled w = true /\ is_Some (out w)
  /\ minLevel w <> O3LogLevel.None /\ minLevel w <= level.
Proof.
  unfold canWrite.
  destruct (enabled w); simpl; [|done].
  case_bool_decide as Ho; simpl; [|done].
  destruct (Z.eqb_spec (minLevel w) O3LogLevel.None); [done|].
  intros H%Z.geb_le. done.
Qed.

Lemma resetLineState_run w W :
  resetLineState (mkMachine w W) = Some (tt, mkMachine (closed w) W).
Proof. done. Qed.

Lemma copyPrefix_run value w W :
  length (prefixBuffer w) = prefixMaxLen ->
  exists buf,
    copyPrefix value (mkMachine w W)
    = Some (tt, mkMachine (set_prefixBuffer buf w) W)
    /\ length buf = prefixMaxLen
    /\ c_str buf
       = Some (truncate (prefixMaxLen - 1) (until_nul (prefix_arg value))).
Proof.
  intros Hlen.
  destruct (copy_bounded_spec prefixMaxLen (prefix_arg value)
              (prefixBuffer w) Hlen) as (buf & Hc & Hl & Hs & _);
    [unfold prefixMaxLen; lia|].
  exists buf. split; [|done].
  unfold copyPrefix. fold (prefix_arg value). msimpl. by rewrite Hc.
Qed.

Lemma copyPartSeparator_run value w W :
  length (partSeparatorBuffer w) = partSepMaxLen ->
  exists buf,
    copyPartSeparator value (mkMachine w W)
    = Some (tt, mkMachine (set_partSeparatorBuffer buf w) W)
    /\ length buf = partSepMaxLen
    /\ c_str buf
       = Some (truncate (partSepMaxLen - 1)
                 (until_nul (separator_arg value))).
Proof.
  intros Hlen.
  destruct (copy_bounded_spec partSepMaxLen (separator_arg value)
              (partSeparatorBuffer w) Hlen) as (buf & Hc & Hl & Hs & _);
    [unfold partSepMaxLen; lia|].
  exists buf. split; [|done].
  unfold copyPartSeparator. fold (separator_arg value). msimpl.
  by rewrite Hc.
Qed.

(** [writeHeader] sends the header of the specification, with the prefix
    read from the array and the time read from the clock. *)
Lemma writeHeader_run level w W p pfx :
  out w = Some p -> c_str (prefixBuffer w) = Some pfx ->
  writeHeader level (mkMachine w W)
  = Some (tt, mkMachine w
                (emit p (header_spec pfx (showMillis w) (showLevel w)
                           (clock W) level) W)).
Proof.
  intros Hout Hpfx. unfold writeHeader, header_spec.
  destruct (prefixBuffer w) as [|c0 buf] eqn:Hbuf; [done|].
  simpl in Hpfx. msimpl. rewrite Hbuf. simpl.
  destruct (is_nul c0) eqn:Ec; simpl.
  - injection Hpfx as <-.
    destruct (showMillis w), (showLevel w);
      mrun Hout; rewrite ?emit_emit, ?clock_emit; done.
  - destruct (c_str buf) as [s|] eqn:Hs; [|done]. injection Hpfx as <-.
    destruct (showMillis w), (showLevel w);
      mrun Hout; rewrite ?emit_emit, ?clock_emit; done.
Qed.

(** The three cases of [ensureLineHeader] in one equation. *)
Lemma ensureLineHeader_run level w W p pfx :
  out w = Some p -> c_str (prefixBuffer w) = Some pfx ->
  ensureLineHeader level (mkMachine w W)
  = Some (tt, mkMachine (opened level w)
                (emit p (ensure_calls w pfx (clock W) level) W)).
Proof.
  intros Hout Hpfx. unfold ensureLineHeader, ensure_calls.
  unfold mbind at 1, M_bind at 1, this at 1. simpl.
  destruct (lineOpen w) eqn:Hopen; simpl.
  - destruct (Z.eqb_spec level (activeLevel w)) as [->|Hne]; simpl.
    + rewrite opened_same by done. done.
    + msimpl. rewrite Hout. simpl.
      rewrite (writeHeader_run level _ _ p pfx) by done. simpl.
      rewrite ?clock_emit, emit_emit. by destruct w.
  - msimpl.
    rewrite (writeHeader_run level _ _ p pfx) by done. simpl.
    by destruct w.
Qed.

Lemma writeParts_run first rest w W p sep :
  out w = Some p -> c_str (partSeparatorBuffer w) = Some sep ->
  writeParts first rest (mkMachine w W)
  = Some (tt, mkMachine w (emit p (join_spec sep first rest) W)).
Proof.
  intros Hout Hsep. revert first W.
  induction rest as [|r rest IH]; intros first W.
  - simpl. mrun Hout. done.
  - change (writeParts first (r :: rest))
      with (writePart first;;
            w0 ← this;
            s ← lift (c_str (partSeparatorBuffer w0));
            out_print (PStr s);;
            writeParts r rest).
    mrun Hout. rewrite Hsep. mrun Hout. rewrite IH.
    by rewrite !emit_emit.
Qed.

Lemma line_run level message w W p pfx :
  canWrite w level = true ->
  out w = Some p -> c_str (prefixBuffer w) = Some pfx ->
  line level message (mkMachine w W)
  = Some (tt, mkMachine (closed w)
                (emit p (ensure_calls w pfx (clock W) level
                         ++ [Print (PStr message); Println]) W)).
Proof.
  intros Hcan Hout Hpfx. unfold line.
  unfold mbind at 1, M_bind at 1, this at 1. simpl. rewrite Hcan. simpl.
  unfold mbind at 1, M_bind at 1.
  rewrite (ensureLineHeader_run level w W p pfx) by done.
  unfold resetLineState. mrun Hout.
  rewrite !emit_emit, <- ?app_assoc. by destruct w.
Qed.

Lemma parts_run level first rest w W p pfx sep :
  canWrite w level = true ->
  out w = Some p -> c_str (prefixBuffer w) = Some pfx ->
  c_str (partSeparatorBuffer w) = Some sep ->
  parts level first rest (mkMachine w W)
  = Some (tt, mkMachine (closed w)
                (emit p (ensure_calls w pfx (clock W) level
                         ++ join_spec sep first rest ++ [Println]) W)).
Proof.
  intros Hcan Hout Hpfx Hsep. unfold parts.
  unfold mbind at 1, M_bind at 1, this at 1. simpl. rewrite Hcan. simpl.
  unfold mbind at 1, M_bind at 1.
  rewrite (ensureLineHeader_run level w W p pfx) by done.
  unfold mbind at 1, M_bind at 1.
  rewrite (writeParts_run first rest _ _ p sep) by (by destruct w).
  unfold resetLineState. mrun Hout.
  rewrite !emit_emit, <- ?app_assoc. by destruct w.
Qed.

Lemma printWithLevel_run level value w W p pfx :
  canWrite w level = true ->
  out w = Some p -> c_str (prefixBuffer w) = Some pfx ->
  printWithLevel level value (mkMachine w W)
  = Some (tt, mkMachine (opened level w)
                (emit p (ensure_calls w pfx (clock W) level
                         ++ [Print value]) W)).
Proof.
  intros Hcan Hout Hpfx. unfold printWithLevel.
  unfold mbind at 1, M_bind at 1, this at 1. simpl. rewrite Hcan. simpl.
  unfold mbind at 1, M_bind at 1.
  rewrite (ensureLineHeader_run level w W p pfx) by done.
  mrun Hout. by rewrite !emit_emit.
Qed.

Lemma printlnWithLevel_run level value w W p pfx :
  canWrite w level = true ->
  out w = Some p -> c_str (prefixBuffer w) = Some pfx ->
  printlnWithLevel level value (mkMachine w W)
  = Some (tt, mkMachine (closed w)
                (emit p (ensure_calls w pfx (clock W) level
                         ++ [Print value; Println]) W)).
Proof.
  intros Hcan Hout Hpfx. unfold printlnWithLevel.
  unfold mbind at 1, M_bind at 1, this at 1. simpl. rewrite Hcan. simpl.
  unfold mbind at 1, M_bind at 1.
  rewrite (ensureLineHeader_run level w W p pfx) by done.
  unfold resetLineState. mrun Hout.
  rewrite !emit_emit, <- ?app_assoc. by destruct w.
Qed.

Lemma println0_run w W p pfx :
  canWrite w (defaultLevel w) = true ->
  out w = Some p -> c_str (prefixBuffer w) = Some pfx ->
  println0 (mkMachine w W)
  = Some (tt, mkMachine (closed w)
                (emit p (ensure_calls w pfx (clock W) (defaultLevel w)
                         ++ [Println]) W)).
Proof.
  intros Hcan Hout Hpfx. unfold println0.
  unfold mbind at 1, M_bind at 1, this at 1. simpl. rewrite Hcan. simpl.
  unfold mbind at 1, M_bind at 1.
  rewrite (ensureLineHeader_run _ w W p pfx) by done.
  unfold resetLineState. mrun Hout.
  rewrite !emit_emit. by destruct w.
Qed.

(** A write that the gate refuses does nothing at all. *)
Lemma gated_noop w W level :
  canWrite w level = false ->
  (forall message, line level message (mkMachine w W)
                   = Some (tt, mkMachine w W))
  /\ (forall first rest, parts level first rest (mkMachine w W)
                         = Some (tt, mkMachine w W))
  /\ (forall value, printWithLevel level value (mkMachine w W)
                    = Some (tt, mkMachine w W))
  /\ (forall value, printlnWithLevel level value (mkMachine w W)
                    = Some (tt, mkMachine w W)).
Proof.
  intros Hcan. repeat split; intros;
    unfold line, parts, printWithLevel, printlnWithLevel;
    unfold mbind at 1, M_bind at 1, this at 1; simpl;
    by rewrite Hcan.
Qed.

End Methods.

(** ** Configuration calls *)

Section Configuration.

Implicit Types (w : O3SerialWriter) (W : World).

Lemma configure_run options w W :
  length (prefixBuffer w) = prefixMaxLen ->
  length (partSeparatorBuffer w) = partSepMaxLen ->
  exists pbuf sbuf,
    configure options (mkMachine w W)
    = Some (tt, mkMachine (configured pbuf sbuf options w) W)
    /\ length pbuf = prefixMaxLen
    /\ length sbuf = partSepMaxLen
    /\ c_str pbuf
       = Some (truncate (prefixMaxLen - 1)
                 (until_nul (prefix_arg (opt_prefix options))))
    /\ c_str sbuf
       = Some (truncate (partSepMaxLen - 1)
                 (until_nul (separator_arg (opt_partSeparator options)))).
Proof.
  intros Hp Hs.
  destruct (copyPrefix_run (opt_prefix options) w W Hp)
    as (pbuf & Hrun1 & Hl1 & Hc1).
  destruct (copyPartSeparator_run (opt_partSeparator options)
              (set_prefixBuffer pbuf w) W Hs)
    as (sbuf & Hrun2 & Hl2 & Hc2).
  exists pbuf, sbuf. split; [|done].
  unfold configure.
  unfold mbind at 1, M_bind at 1. rewrite Hrun1.
  unfold mbind at 1, M_bind at 1. rewrite Hrun2.
  by destruct w.
Qed.

Lemma begin_run stream options w W :
  length (prefixBuffer w) = prefixMaxLen ->
  length (partSeparatorBuffer w) = partSepMaxLen ->
  exists pbuf sbuf,
    begin stream options (mkMachine w W)
    = Some (tt, mkMachine
                  (configured pbuf sbuf options (set_out (Some stream) w)) W)
    /\ length pbuf = prefixMaxLen
    /\ length sbuf = partSepMaxLen
    /\ c_str pbuf
       = Some (truncate (prefixMaxLen - 1)
                 (until_nul (prefix_arg (opt_prefix options))))
    /\ c_str sbuf
       = Some (truncate (partSepMaxLen - 1)
                 (until_nul (separator_arg (opt_partSeparator options)))).
Proof.
  intros Hp Hs.
  destruct (configure_run options (set_out (Some stream) w) W Hp Hs)
    as (pbuf & sbuf & Hrun & H).
  exists pbuf, sbuf. split; [|done].
  unfold begin. unfold mbind at 1, M_bind at 1, assign. simpl.
  by rewrite Hrun.
Qed.

Lemma beginSerial_run port baud options w W :
  length (prefixBuffer w) = prefixMaxLen ->
  length (partSeparatorBuffer w) = partSepMaxLen ->
  exists pbuf sbuf,
    beginSerial port baud options (mkMachine w W)
    = Some (tt, mkMachine
                  (configured pbuf sbuf options (set_out (Some port) w))
                  (emit port [SerialBegin baud] W))
    /\ length pbuf = prefixMaxLen
    /\ length sbuf = partSepMaxLen
    /\ is_Some (c_str pbuf) /\ is_Some (c_str sbuf).
Proof.
  intros Hp Hs.
  destruct (begin_run port options w (emit port [SerialBegin baud] W) Hp Hs)
    as (pbuf & sbuf & Hrun & ? & ? & ? & ?).
  exists pbuf, sbuf. split; [|by eauto].
  unfold beginSerial. unfold mbind at 1, M_bind at 1. simpl.
  by rewrite Hrun.
Qed.

Lemma setEnabled_run isEnabled w W :
  setEnabled isEnabled (mkMachine w W)
  = Some (tt, mkMachine
                (if isEnabled then set_enabled true w
                 else closed (set_enabled false w)) W).
Proof. by destruct isEnabled. Qed.

Lemma setMinLevel_run level w W :
  setMinLevel level (mkMachine w W)
  = Some (tt, mkMachine (set_minLevel level w) W).
Proof. done. Qed.

End Configuration.

(** ** What every run preserves *)

Section Invariant.

Implicit Types (w : O3SerialWriter) (W : World) (m : Machine).

Lemma line_invariant_closed w W :
  lineOpen w = false -> line_invariant (mkMachine w W).
Proof. intros H. unfold line_invariant. simpl. by rewrite H. Qed.

(** Calls that leave alone the line state, the toggles, [out] and what the
    streams hold. *)
Lemma line_invariant_frame w W w' W' :
  lineOpen w' = lineOpen w -> activeLevel w' = activeLevel w ->
  out w' = out w -> showMillis w' = showMillis w ->
  showLevel w' = showLevel w ->
  (forall p, written W' p = written W p) ->
  line_invariant (mkMachine w W) -> line_invariant (mkMachine w' W').
Proof.
  unfold line_invariant. simpl.
  intros -> -> -> -> -> Hw Inv Hopen.
  destruct (Inv Hopen) as (p & pre & pfx & t & payload & ? & ? & ?).
  exists p, pre, pfx, t, payload. by rewrite Hw.
Qed.

Lemma header_spec_no_println pfx sm sl t level :
  Forall (fun c => is_println c = false) (header_spec pfx sm sl t level).
Proof.
  unfold header_spec. destruct pfx, sm, sl; simpl; repeat constructor.
Qed.

(** A value printed without ending the line. *)
Lemma line_invariant_print w W p pfx level value :
  out w = Some p ->
  line_invariant (mkMachine w W) ->
  line_invariant
    (mkMachine (opened level w)
       (emit p (ensure_calls w pfx (clock W) level ++ [Print value]) W)).
Proof.
  intros Hout Inv _. simpl. unfold ensure_calls.
  destruct (lineOpen w) eqn:Hopen; simpl.
  - destruct (Z.eqb_spec level (activeLevel w)) as [->|Hne]; simpl.
    + destruct (Inv Hopen) as (q & pre & pfx' & t & payload & Hq & Hw & Hp).
      simpl in *. assert (q = p) as -> by congruence.
      exists p, pre, pfx', t, (payload ++ [Print value]).
      destruct w; simpl in *. split; [done|]. split.
      * by rewrite written_emit_eq, Hw, <- !app_assoc.
      * apply Forall_app. split; [done|]. by repeat constructor.
    + exists p, (written W p ++ [Println]), pfx, (clock W), [Print value].
      destruct w; simpl in *. split; [done|]. split.
      * rewrite written_emit_eq. simpl. by rewrite <- ?app_assoc.
      * by repeat constructor.
  - exists p, (written W p), pfx, (clock W), [Print value].
    destruct w; simpl in *. split; [done|]. split.
    + rewrite written_emit_eq. by rewrite <- ?app_assoc.
    + by repeat constructor.
Qed.

Ltac gate w W level :=
  let Hcan := fresh "Hcan" in
  let p := fresh "p" in
  let Hout := fresh "Hout" in
  destruct (canWrite w level) eqn:Hcan;
  [ destruct (canWrite_true_inv _ _ Hcan) as (_ & [p Hout] & _)
  | destruct (gated_noop w W level Hcan) as (? & ? & ? & ?) ].

(** A write that ends the line. *)
Local Lemma step_line level message w W :
  machine_ok (mkMachine w W) ->
  exists w' W',
    line level message (mkMachine w W) = Some (tt, mkMachine w' W')
    /\ machine_ok (mkMachine w' W').
Proof.
  intros (Hb & Hd & Inv). pose proof Hb as (_ & _ & [pfx Hpfx] & _).
  simpl in *. gate w W level.
  - rewrite (line_run _ _ _ _ p pfx) by done.
    do 2 eexists; split; [done|].
    split; [by apply buffers_ok_closed|]. split; [by destruct w|].
    by apply line_invariant_closed.
  - by exists w, W.
Qed.

Local Lemma step_parts level first rest w W :
  machine_ok (mkMachine w W) ->
  exists w' W',
    parts level first rest (mkMachine w W) = Some (tt, mkMachine w' W')
    /\ machine_ok (mkMachine w' W').
Proof.
  intros (Hb & Hd & Inv).
  pose proof Hb as (_ & _ & [pfx Hpfx] & [sep Hsep]).
  simpl in *. gate w W level.
  - rewrite (parts_run _ _ _ _ _ p pfx sep) by done.
    do 2 eexists; split; [done|].
    split; [by apply buffers_ok_closed|]. split; [by destruct w|].
    by apply line_invariant_closed.
  - by exists w, W.
Qed.

Local Lemma step_printlnWithLevel level value w W :
  machine_ok (mkMachine w W) ->
  exists w' W',
    printlnWithLevel level value (mkMachine w W)
    = Some (tt, mkMachine w' W')
    /\ machine_ok (mkMachine w' W').
Proof.
  intros (Hb & Hd & Inv). pose proof Hb as (_ & _ & [pfx Hpfx] & _).
  simpl in *. gate w W level.
  - rewrite (printlnWithLevel_run _ _ _ _ p pfx) by done.
    do 2 eexists; split; [done|].
    split; [by apply buffers_ok_closed|]. split; [by destruct w|].
    by apply line_invariant_closed.
  - by exists w, W.
Qed.

Local Lemma step_printWithLevel level value w W :
  machine_ok (mkMachine w W) ->
  exists w' W',
    printWithLevel level value (mkMachine w W)
    = Some (tt, mkMachine w' W')
    /\ machine_ok (mkMachine w' W').
Proof.
  intros (Hb & Hd & Inv). pose proof Hb as (_ & _ & [pfx Hpfx] & _).
  simpl in *. gate w W level.
  - rewrite (printWithLevel_run _ _ _ _ p pfx) by done.
    do 2 eexists; split; [done|].
    split; [by apply buffers_ok_opened|]. split; [by destruct w|].
    by apply line_invariant_print.
  - by exists w, W.
Qed.

Local Lemma step_println0 w W :
  machine_ok (mkMachine w W) ->
  exists w' W',
    println0 (mkMachine w W) = Some (tt, mkMachine w' W')
    /\ machine_ok (mkMachine w' W').
Proof.
  intros (Hb & Hd & Inv). pose proof Hb as (_ & _ & [pfx Hpfx] & _).
  destruct (canWrite w (defaultLevel w)) eqn:Hcan.
  - destruct (canWrite_true_inv _ _ Hcan) as (_ & [p Hout] & _).
    rewrite (println0_run _ _ p pfx) by done.
    do 2 eexists; split; [done|].
    split; [by apply buffers_ok_closed|]. split; [by destruct w|].
    by apply line_invariant_closed.
  - exists w, W. split; [|done].
    unfold println0. unfold mbind at 1, M_bind at 1, this at 1. simpl.
    by rewrite Hcan.
Qed.

(** Every call goes through, and keeps the machine well formed. *)
Lemma call_ok c w W :
  machine_ok (mkMachine w W) ->
  exists w' W',
    call c (mkMachine w W) = Some (tt, mkMachine w' W')
    /\ machine_ok (mkMachine w' W').
Proof.
  intros Hok. pose proof Hok as (Hb & Hd & Inv).
  pose proof Hb as (Hlp & Hls & Hcp & Hcs).
  destruct c; simpl.
  - destruct (beginSerial_run port baud options w W Hlp Hls)
      as (pbuf & sbuf & -> & ? & ? & ? & ?).
    do 2 eexists; split; [done|]. split; [done|]. split; [done|].
    by apply line_invariant_closed.
  - destruct (begin_run stream options w W Hlp Hls)
      as (pbuf & sbuf & -> & ? & ? & Hc1 & Hc2).
    do 2 eexists; split; [done|].
    split; [by unfold buffers_ok; simpl; rewrite Hc1, Hc2; eauto|].
    split; [done|].
    by apply line_invariant_closed.
  - destruct (configure_run options w W Hlp Hls)
      as (pbuf & sbuf & -> & ? & ? & Hc1 & Hc2).
    do 2 eexists; split; [done|].
    split; [by unfold buffers_ok; simpl; rewrite Hc1, Hc2; eauto|].
    split; [done|].
    by apply line_invariant_closed.
  - destruct (copyPrefix_run newPrefix w W Hlp) as (buf & Hrun & ? & Hc).
    unfold setPrefix. rewrite Hrun.
    do 2 eexists; split; [done|].
    split; [by unfold buffers_ok; simpl; rewrite Hc; eauto|].
    split; [done|].
    by eapply line_invariant_frame; [..|exact Inv].
  - do 2 eexists; split; [done|]. split; [done|]. split; [done|].
    by eapply line_invariant_frame; [..|exact Inv].
  - destruct (copyPartSeparator_run value w W Hls) as (buf & Hrun & ? & Hc).
    unfold setPartSeparator. rewrite Hrun.
    do 2 eexists; split; [done|].
    split; [by unfold buffers_ok; simpl; rewrite Hc; eauto|].
    split; [done|].
    by eapply line_invariant_frame; [..|exact Inv].
  - rewrite setEnabled_run. do 2 eexists; split; [done|].
    match goal with |- context [if ?b then _ else _] => destruct b end.
    + split; [done|]. split; [done|].
      by eapply line_invariant_frame; [..|exact Inv].
    + split; [done|]. split; [done|]. by apply line_invariant_closed.
  - by apply step_printWithLevel.
  - by apply step_printlnWithLevel.
  - by apply step_println0.
  - by apply step_printWithLevel.
  - by apply step_printlnWithLevel.
  - by apply step_line.
  - by apply step_line.
  - by apply step_line.
  - by apply step_line.
  - by apply step_parts.
  - by apply step_parts.
  - by apply step_parts.
  - by apply step_parts.
  - do 2 eexists; split; [done|]. split; [done|]. split; [done|].
    by eapply line_invariant_frame; [..|exact Inv].
Qed.

Lemma run_ok cs m :
  machine_ok m ->
  exists m', run cs m = Some (tt, m') /\ machine_ok m'.
Proof.
  revert m; induction cs as [|c cs IH]; intros [w W] Hok; simpl.
  - by exists (mkMachine w W).
  - destruct (call_ok c w W Hok) as (w' & W' & Hc & Hok').
    destruct (IH _ Hok') as (m' & Hr & Hok'').
    exists m'. split; [|done].
    unfold mbind, M_bind. by rewrite Hc.
Qed.

Lemma boot_ok W : machine_ok (boot W).
Proof.
  split; [apply buffers_ok_new|]. split; [done|].
  by apply line_invariant_closed.
Qed.

Lemma run_app cs1 cs2 m :
  run (cs1 ++ cs2) m
  = match run cs1 m with
    | Some (_, m') => run cs2 m'
    | None => None
    end.
Proof.
  revert m; induction cs1 as [|c cs1 IH]; intros m; simpl; [done|].
  unfold mbind, M_bind. destruct (call c m) as [[[] m']|]; [|done].
  apply IH.
Qed.

End Invariant.

(** ** The line state machine *)

Section LineStateMachine.

Implicit Types (w : O3SerialWriter) (W : World) (level : O3LogLevel.t).

Lemma reachable_ok m : reachable m -> machine_ok m.
Proof.
  intros (W & cs & Hrun).
  destruct (run_ok cs (boot W) (boot_ok W)) as (m' & Hrun' & Hok).
  congruence.
Qed.

Lemma canWrite_opened level level' w :
  canWrite (opened level' w) level = canWrite w level.
Proof. by destruct w. Qed.

Lemma ensure_calls_closed w pfx t level :
  lineOpen w = false ->
  ensure_calls w pfx t level
  = header_spec pfx (showMillis w) (showLevel w) t level.
Proof. intros H. unfold ensure_calls. by rewrite H. Qed.

Lemma ensure_calls_same w pfx t level :
  lineOpen w = true -> level = activeLevel w ->
  ensure_calls w pfx t level = [].
Proof.
  intros H ->. unfold ensure_calls. rewrite H. simpl.
  by rewrite Z.eqb_refl.
Qed.

Lemma ensure_calls_other w pfx t level :
  lineOpen w = true -> level <> activeLevel w ->
  ensure_calls w pfx t level
  = Println :: header_spec pfx (showMillis w) (showLevel w) t level.
Proof.
  intros H Hne. unfold ensure_calls. rewrite H. simpl.
  by destruct (Z.eqb_spec level (activeLevel w)).
Qed.

(** Values printed at one level and then a terminating call: whatever the
    stream gets from [ensureLineHeader] at the first call, then the values
    with nothing between them, then the line break. *)
Lemma assemble_run level steps last w W p pfx :
  canWrite w level = true ->
  out w = Some p -> c_str (prefixBuffer w) = Some pfx ->
  exists W',
    run (assemble level steps ++ [CPrintlnWithLevel level last])
      (mkMachine w W)
    = Some (tt, mkMachine (closed w) W')
    /\ written W' p
       = written W p ++ ensure_calls w pfx (clock W) level
         ++ map (fun s => Print (fst s)) steps ++ [Print last; Println].
Proof.
  intros Hcan Hout Hpfx. revert w W Hcan Hout Hpfx.
  induction steps as [|[v d] steps IH]; intros w W Hcan Hout Hpfx.
  - simpl. unfold mbind, M_bind.
    rewrite (printlnWithLevel_run _ _ _ _ p pfx) by done.
    eexists; split; [done|]. by rewrite written_emit_eq.
  - change (assemble level ((v, d) :: steps))
      with ([CPrintWithLevel level v; CElapse d] ++ assemble level steps).
    rewrite <- app_assoc, run_app. simpl.
    unfold mbind at 1, M_bind at 1.
    rewrite (printWithLevel_run _ _ _ _ p pfx) by done.
    unfold mbind at 1, M_bind at 1. simpl.
    set (W1 := elapse d _).
    destruct (IH (opened level w) W1) as (W' & Hrun & Hw);
      [by rewrite canWrite_opened | by destruct w | by destruct w |].
    exists W'. rewrite Hrun, closed_opened. split; [done|].
    rewrite Hw.
    rewrite ensure_calls_same by (by destruct w).
    unfold W1. unfold written at 1, elapse. simpl.
    fold (written (emit p (ensure_calls w pfx (clock W) level ++ [Print v]) W) p).
    rewrite written_emit_eq. simpl. by rewrite <- !app_assoc.
Qed.

(** C1. The invariant of the line state holds in every machine a program
    can reach: while [lineOpen] is set, the stream [out] points to holds a
    header written for [activeLevel] and, after it, no line break.  And a
    line assembled at a level the gate lets through gets its header once:
    starting with no line open, any number of [printWithLevel] calls at
    that level, with time passing between them, followed by
    [printlnWithLevel], send one header, then the values, then one line
    break, and leave the line closed. *)
Theorem C1_one_header_per_line (m : Machine) (Hreach : reachable m) :
  line_invariant m
  /\ forall level steps last p pfx,
       lineOpen (self m) = false ->
       canWrite (self m) level = true ->
       out (self m) = Some p ->
       c_str (prefixBuffer (self m)) = Some pfx ->
       exists m',
         run (assemble level steps ++ [CPrintlnWithLevel level last]) m
         = Some (tt, m')
         /\ lineOpen (self m') = false
         /\ output_since p m m'
            = header_spec pfx (showMillis (self m)) (showLevel (self m))
                (clock (world m)) level
              ++ map (fun s => Print (fst s)) steps
              ++ [Print last; Println].
Proof.
  split; [by apply reachable_ok|].
  intros level steps last p pfx Hclosed Hcan Hout Hpfx.
  destruct m as [w W]. simpl in *.
  destruct (assemble_run level steps last w W p pfx Hcan Hout Hpfx)
    as (W' & Hrun & Hw).
  eexists; split; [exact Hrun|]. split; [by destruct w|].
  unfold output_since. simpl. rewrite Hw.
  rewrite drop_app_length. by rewrite ensure_calls_closed.
Qed.

Lemma C1_one_header_per_line_witness :
  line_invariant attachedDefault
  /\ exists m',
       run (assemble O3LogLevel.Info [(PStr "Backoff ", 7); (PNum 250, 0)]
            ++ [CPrintlnWithLevel O3LogLevel.Info (PStr " ms")])
         attachedDefault
       = Some (tt, m')
       /\ lineOpen (self m') = false
       /\ output_since 0 attachedDefault m'
          = [Print (PNum 0); Print (PChar " "); Print (PStr "INFO");
             Print (PStr ": "); Print (PStr "Backoff "); Print (PNum 250);
             Print (PStr " ms"); Println].
Proof.
  assert (Hreach : reachable attachedDefault).
  { exists emptyWorld, [CBegin 0%nat defaultOptions]. reflexivity. }
  destruct (C1_one_header_per_line attachedDefault Hreach) as [Hinv Hline].
  split; [exact Hinv|].
  apply (Hline O3LogLevel.Info [(PStr "Backoff ", 7); (PNum 250, 0)]
           (PStr " ms") 0%nat EmptyString);
    reflexivity.
Defined.

End LineStateMachine.

(** ** The header decision *)

Section EnsureHeader.

Implicit Types (w : O3SerialWriter) (W : World) (level : O3LogLevel.t).

(** C2. [ensureLineHeader level] has three cases.  With no line open it
    writes the header for [level] and leaves the line open at [level].
    With a line open at [level] it changes nothing and writes nothing.
    With a line open at another level it is a line break, a reset of the
    line state, and then the first case; the stream gets the line break
    before the new header.  So two values printed at different levels
    never share a line: the first line is ended before the second header
    is written. *)
Theorem C2_ensureLineHeader_cases (w : O3SerialWriter) (W : World)
    (level : O3LogLevel.t) (p : nat) (pfx : string)
    (Hout : out w = Some p) (Hpfx : c_str (prefixBuffer w) = Some pfx) :
  let header t l := header_spec pfx (showMillis w) (showLevel w) t l in
  (lineOpen w = false ->
     ensureLineHeader level (mkMachine w W)
     = Some (tt, mkMachine (opened level w)
                   (emit p (header (clock W) level) W))
     /\ lineOpen (opened level w) = true
     /\ activeLevel (opened level w) = level)
  /\ (lineOpen w = true -> level = activeLevel w ->
        ensureLineHeader level (mkMachine w W) = Some (tt, mkMachine w W))
  /\ (lineOpen w = true -> level <> activeLevel w ->
        ensureLineHeader level (mkMachine w W)
        = (out_println;; resetLineState;; ensureLineHeader level)
            (mkMachine w W)
        /\ ensureLineHeader level (mkMachine w W)
           = Some (tt, mkMachine (opened level w)
                         (emit p (Println :: header (clock W) level) W)))
  /\ (forall l1 l2 a b,
        lineOpen w = false -> l1 <> l2 ->
        canWrite w l1 = true -> canWrite w l2 = true ->
        (printWithLevel l1 a;; printWithLevel l2 b) (mkMachine w W)
        = Some (tt, mkMachine (opened l2 w)
                      (emit p (header (clock W) l1 ++ [Print a; Println]
                               ++ header (clock W) l2 ++ [Print b]) W))).
Proof.
  intros header.
  pose proof (ensureLineHeader_run level w W p pfx Hout Hpfx) as Hrun.
  split; [|split; [|split]].
  - intros Hclosed. rewrite Hrun, ensure_calls_closed by done.
    by destruct w.
  - intros Hopen Heq. rewrite Hrun, ensure_calls_same by done.
    by rewrite opened_same.
  - intros Hopen Hne. rewrite Hrun, ensure_calls_other by done.
    split; [|done].
    unfold resetLineState. mrun Hout.
    rewrite (ensureLineHeader_run level _ _ p pfx) by done.
    rewrite ensure_calls_closed by done. simpl.
    rewrite emit_emit. by destruct w.
  - intros l1 l2 a b Hclosed Hne Hc1 Hc2.
    unfold mbind at 1, M_bind at 1.
    rewrite (printWithLevel_run l1 a w W p pfx) by done.
    rewrite (printWithLevel_run l2 b _ _ p pfx)
      by (by rewrite ?canWrite_opened; destruct w).
    rewrite (ensure_calls_closed w) by done.
    rewrite (ensure_calls_other (opened l1 w))
      by (destruct w; simpl; congruence).
    rewrite emit_emit, clock_emit. simpl.
    rewrite <- !app_assoc. simpl. by destruct w.
Qed.

Lemma C2_ensureLineHeader_cases_witness :
  let w := self attachedDefault in
  let W := world attachedDefault in
  ensureLineHeader O3LogLevel.Warn (mkMachine w W)
  = Some (tt, mkMachine (opened O3LogLevel.Warn w)
                (emit 0 [Print (PNum 0); Print (PChar " ");
                         Print (PStr "WARN"); Print (PStr ": ")] W))
  /\ (printWithLevel O3LogLevel.Info (PStr "a");;
      printWithLevel O3LogLevel.Warn (PStr "b")) (mkMachine w W)
     = Some (tt, mkMachine (opened O3LogLevel.Warn w)
                   (emit 0 [Print (PNum 0); Print (PChar " ");
                            Print (PStr "INFO"); Print (PStr ": ");
                            Print (PStr "a"); Println;
                            Print (PNum 0); Print (PChar " ");
                            Print (PStr "WARN"); Print (PStr ": ");
                            Print (PStr "b")] W)).
Proof.
  intros w W.
  destruct (C2_ensureLineHeader_cases w W O3LogLevel.Warn 0%nat EmptyString
              eq_refl eq_refl) as (H1 & _ & _ & H4).
  split.
  - apply H1. reflexivity.
  - apply (H4 O3LogLevel.Info O3LogLevel.Warn); [reflexivity | | | ];
      unfold O3LogLevel.Info, O3LogLevel.Warn; [lia | reflexivity ..].
Defined.

End EnsureHeader.

(** ** The gate *)

Section Gate.

Implicit Types (w : O3SerialWriter) (W : World) (level : O3LogLevel.t).

Lemma canWrite_false_iff w level :
  canWrite w level = false
  <-> enabled w = false \/ out w = None
      \/ minLevel w = O3LogLevel.None \/ level < minLevel w.
Proof.
  unfold canWrite.
  destruct (enabled w); simpl; [|by split; auto].
  case_bool_decide as Ho; simpl.
  - destruct (Z.eqb_spec (minLevel w) O3LogLevel.None) as [He|Hne];
      [by split; auto|].
    rewrite Z.geb_leb, Z.leb_gt.
    split; [by auto|]. intros [?|[Hn|[?|?]]]; try done.
    rewrite Hn in Ho. by destruct Ho.
  - split; [|done]. intros _. right. left.
    destruct (out w); [|done]. exfalso. apply Ho. eauto.
Qed.

(** C3. The gate refuses a level exactly when the writer is disabled, or
    no stream is attached, or the threshold is [None], or the level is
    below the threshold.  A write the gate refuses returns at once: the
    writer, with its line state and its configuration, and every stream
    are what they were.  This holds for [line] (behind [debug], [info],
    [warn], [error]), for [parts], for [printWithLevel] and
    [printlnWithLevel], and for [print], [println] and the bare
    [println] at the default level. *)
Theorem C3_gate (w : O3SerialWriter) (level : O3LogLevel.t) :
  (canWrite w level = false
   <-> enabled w = false \/ out w = None
       \/ minLevel w = O3LogLevel.None \/ level < minLevel w)
  /\ (canWrite w level = false ->
      forall W,
        (forall message,
            line level message (mkMachine w W) = Some (tt, mkMachine w W))
        /\ (forall first rest,
               parts level first rest (mkMachine w W)
               = Some (tt, mkMachine w W))
        /\ (forall value,
               printWithLevel level value (mkMachine w W)
               = Some (tt, mkMachine w W))
        /\ (forall value,
               printlnWithLevel level value (mkMachine w W)
               = Some (tt, mkMachine w W))
        /\ (level = defaultLevel w ->
            (forall value,
                print value (mkMachine w W) = Some (tt, mkMachine w W))
            /\ (forall value,
                   println value (mkMachine w W)
                   = Some (tt, mkMachine w W))
            /\ println0 (mkMachine w W) = Some (tt, mkMachine w W))).
Proof.
  split; [apply canWrite_false_iff|].
  intros Hcan W.
  destruct (gated_noop w W level Hcan) as (Hl & Hp & Hw & Hwl).
  repeat split; try done; intros; subst level.
  - apply Hw.
  - apply Hwl.
  - unfold println0. unfold mbind at 1, M_bind at 1, this at 1. simpl.
    by rewrite Hcan.
Qed.

Lemma C3_gate_witness :
  let w := set_minLevel O3LogLevel.Warn (self attachedDefault) in
  let W := world attachedDefault in
  canWrite w O3LogLevel.Info = false
  /\ line O3LogLevel.Info "x" (mkMachine w W) = Some (tt, mkMachine w W)
  /\ parts O3LogLevel.Info (PStr "x") [PNum 1] (mkMachine w W)
     = Some (tt, mkMachine w W)
  /\ print (PStr "x") (mkMachine w W) = Some (tt, mkMachine w W).
Proof.
  intros w W.
  destruct (C3_gate w O3LogLevel.Info) as [Hiff Hnoop].
  assert (Hcan : canWrite w O3LogLevel.Info = false).
  { apply Hiff. right. right. right. vm_compute. reflexivity. }
  destruct (Hnoop Hcan W) as (Hl & Hp & _ & _ & Hd).
  split; [exact Hcan|]. split; [apply Hl|]. split; [apply Hp|].
  apply Hd. reflexivity.
Defined.

End Gate.

(** ** Lines of several parts *)

Section Parts.

Implicit Types (w : O3SerialWriter) (W : World) (level : O3LogLevel.t).
Implicit Types (first : Printable) (rest : list Printable) (sep : string).

Lemma join_spec_cons sep first r rest :
  join_spec sep first (r :: rest)
  = Print first :: Print (PStr sep) :: join_spec sep r rest.
Proof. done. Qed.

Lemma join_spec_length sep first rest :
  length (join_spec sep first rest) = (2 * length rest + 1)%nat.
Proof.
  revert first; induction rest as [|r rest IH]; intros first; [done|].
  rewrite join_spec_cons. cbn [length]. rewrite IH. cbn [length]. lia.
Qed.

Lemma join_spec_part sep first rest k v :
  (first :: rest) !! k = Some v ->
  join_spec sep first rest !! (2 * k)%nat = Some (Print v).
Proof.
  revert first k; induction rest as [|r rest IH]; intros first [|k] Hk.
  - by injection Hk as ->.
  - done.
  - by injection Hk as ->.
  - rewrite join_spec_cons.
    replace (2 * S k)%nat with (S (S (2 * k))) by lia.
    simpl. by apply IH.
Qed.

Lemma join_spec_separator sep first rest k :
  (k < length rest)%nat ->
  join_spec sep first rest !! (2 * k + 1)%nat = Some (Print (PStr sep)).
Proof.
  revert first k; induction rest as [|r rest IH]; intros first k Hk;
    simpl in Hk; [lia|].
  rewrite join_spec_cons. destruct k as [|k]; [done|].
  replace (2 * S k + 1)%nat with (S (S (2 * k + 1))) by lia.
  simpl. apply IH. lia.
Qed.

(** C4, as the code has it.  A call of [parts] with the parts
    [first :: rest] that passes the gate while no line is open sends one
    header, then the parts in order with the separator text between
    neighbours (a part at every even place, the separator at every odd
    place, so one separator fewer than parts and none at either end),
    then one line break, and leaves the line closed.  When a line is open
    at the same level the call sends no header and its parts continue
    that line; when a line is open at another level, a line break ending
    that line comes before the header. *)
Theorem C4_parts_line (w : O3SerialWriter) (W : World)
    (level : O3LogLevel.t) (first : Printable) (rest : list Printable)
    (p : nat) (pfx sep : string)
    (Hcan : canWrite w level = true) (Hout : out w = Some p)
    (Hpfx : c_str (prefixBuffer w) = Some pfx)
    (Hsep : c_str (partSeparatorBuffer w) = Some sep) :
  let header :=
    header_spec pfx (showMillis w) (showLevel w) (clock W) level in
  let joined := join_spec sep first rest in
  (exists m',
      parts level first rest (mkMachine w W) = Some (tt, m')
      /\ self m' = closed w
      /\ lineOpen (self m') = false
      /\ (lineOpen w = false ->
          output_since p (mkMachine w W) m' = header ++ joined ++ [Println])
      /\ (lineOpen w = true -> level = activeLevel w ->
          output_since p (mkMachine w W) m' = joined ++ [Println])
      /\ (lineOpen w = true -> level <> activeLevel w ->
          output_since p (mkMachine w W) m'
          = Println :: header ++ joined ++ [Println]))
  /\ length joined = (2 * length rest + 1)%nat
  /\ (forall k v, (first :: rest) !! k = Some v ->
                  joined !! (2 * k)%nat = Some (Print v))
  /\ (forall k, (k < length rest)%nat ->
                joined !! (2 * k + 1)%nat = Some (Print (PStr sep))).
Proof.
  intros header joined. split.
  - rewrite (parts_run level first rest w W p pfx sep) by done.
    eexists; split; [done|]. simpl. split; [done|]. split; [by destruct w|].
    rewrite output_since_emit. split; [|split].
    + intros H. by rewrite ensure_calls_closed.
    + intros H1 H2. by rewrite ensure_calls_same.
    + intros H1 H2. by rewrite ensure_calls_other.
  - split; [apply join_spec_length|]. split.
    + apply join_spec_part.
    + apply join_spec_separator.
Qed.

Lemma C4_parts_line_witness :
  exists m',
    parts O3LogLevel.Info (PStr "Backoff") [PNum 250; PStr "ms"]
      attachedDefault = Some (tt, m')
    /\ lineOpen (self m') = false
    /\ output_since 0 attachedDefault m'
       = [Print (PNum 0); Print (PChar " "); Print (PStr "INFO");
          Print (PStr ": "); Print (PStr "Backoff"); Print (PStr " ");
          Print (PNum 250); Print (PStr " "); Print (PStr "ms"); Println].
Proof.
  destruct (C4_parts_line (self attachedDefault) (world attachedDefault)
              O3LogLevel.Info (PStr "Backoff") [PNum 250; PStr "ms"]
              0%nat EmptyString " " eq_refl eq_refl eq_refl eq_refl)
    as [(m' & Hrun & _ & Hclosed & Hout & _) _].
  exists m'. split; [exact Hrun|]. split; [exact Hclosed|].
  apply Hout. reflexivity.
Defined.

(** C4 as stated fails when a line is open at another level: the call
    sends two line breaks, the first one before its header. *)
Lemma C4_counterexample :
  let call := parts O3LogLevel.Warn (PStr "x") [PStr "y"] in
  let m' := default midLine (exec call midLine) in
  lineOpen (self midLine) = true
  /\ canWrite (self midLine) O3LogLevel.Warn = true
  /\ call midLine = Some (tt, m')
  /\ output_since 0 midLine m'
     = [Println;
        Print (PNum 0); Print (PChar " "); Print (PStr "WARN");
        Print (PStr ": ");
        Print (PStr "x"); Print (PStr " "); Print (PStr "y"); Println]
  /\ output_since 0 midLine m'
     <> header_spec "" true true 0 O3LogLevel.Warn
        ++ join_spec " " (PStr "x") [PStr "y"] ++ [Println]
  /\ length (List.filter is_println (output_since 0 midLine m')) = 2%nat.
Proof.
  intros call m'. subst call m'.
  split; [vm_compute; reflexivity|].
  split; [vm_compute; reflexivity|].
  split; [vm_compute; reflexivity|].
  split; [vm_compute; reflexivity|].
  split; [|vm_compute; reflexivity].
  vm_compute. discriminate.
Qed.

End Parts.

(** ** The text of a line *)

Section Format.

Implicit Types (w : O3SerialWriter) (W : World) (level : O3LogLevel.t).

Lemma append_assoc (a b c : string) : (a +:+ b) +:+ c = a +:+ (b +:+ c).
Proof.
  induction a as [|x a IH]; [done|].
  change (String x ((a +:+ b) +:+ c) = String x (a +:+ b +:+ c)).
  by rewrite IH.
Qed.

Lemma append_empty_r (a : string) : a +:+ "" = a.
Proof.
  induction a as [|x a IH]; [done|].
  change (String x (a +:+ "") = String x a). by rewrite IH.
Qed.

Lemma render_app (cs1 cs2 : list SinkCall) :
  render (cs1 ++ cs2) = render cs1 +:+ render cs2.
Proof.
  induction cs1 as [|c cs1 IH]; simpl; [done|].
  by rewrite IH, append_assoc.
Qed.

(** The calls of a header put on the wire the text of the specification. *)
Lemma render_header pfx sm sl t level :
  render (header_spec pfx sm sl t level) = header_text pfx sm sl t level.
Proof.
  unfold header_spec, header_text.
  rewrite !render_app.
  f_equal; [|f_equal].
  - destruct pfx; [done|]. cbn [render render_call render_value].
    by rewrite !append_empty_r.
  - destruct sm; [|done]. cbn [render render_call render_value].
    by rewrite !append_empty_r.
  - destruct sl; [|done]. cbn [render render_call render_value].
    by rewrite !append_empty_r.
Qed.

Lemma levelText_other level :
  level <> O3LogLevel.Debug -> level <> O3LogLevel.Info ->
  level <> O3LogLevel.Warn -> level <> O3LogLevel.Error ->
  levelText level = "LOG".
Proof.
  intros H0 H1 H2 H3. unfold levelText.
  destruct (Z.eqb_spec level O3LogLevel.Debug); [done|].
  destruct (Z.eqb_spec level O3LogLevel.Info); [done|].
  destruct (Z.eqb_spec level O3LogLevel.Warn); [done|].
  by destruct (Z.eqb_spec level O3LogLevel.Error).
Qed.

(** C5. A line written by [line] on a writer with no line open is, byte
    for byte: the prefix between ['['] and ["] "] when the prefix is not
    empty, the value of [millis()] and a space when the timestamp is
    shown, the severity label and [": "] when the label is shown, the
    message, and the line break.  [writeHeader] alone writes the part
    before the message, and a line assembled by [printWithLevel] calls
    and ended by [printlnWithLevel] has the same header before its
    values.  The labels are DEBUG, INFO, WARN and ERROR for the four
    levels and LOG for every other value. *)
Theorem C5_line_format (w : O3SerialWriter) (W : World)
    (level : O3LogLevel.t) (message : string) (p : nat) (pfx : string)
    (Hcan : canWrite w level = true) (Hout : out w = Some p)
    (Hpfx : c_str (prefixBuffer w) = Some pfx)
    (Hclosed : lineOpen w = false) :
  (exists m',
      line level message (mkMachine w W) = Some (tt, m')
      /\ render (output_since p (mkMachine w W) m')
         = ((match pfx with
             | EmptyString => ""
             | _ => "[" +:+ pfx +:+ "] "
             end)
            +:+ (if showMillis w then render_num (clock W) +:+ " " else "")
            +:+ (if showLevel w then levelText level +:+ ": " else ""))
           +:+ message +:+ line_break)
  /\ (exists m',
         writeHeader level (mkMachine w W) = Some (tt, m')
         /\ self m' = w
         /\ render (output_since p (mkMachine w W) m')
            = header_text pfx (showMillis w) (showLevel w) (clock W) level)
  /\ (forall steps last, exists m',
         run (assemble level steps ++ [CPrintlnWithLevel level last])
           (mkMachine w W) = Some (tt, m')
         /\ render (output_since p (mkMachine w W) m')
            = header_text pfx (showMillis w) (showLevel w) (clock W) level
              +:+ render (map (fun s => Print (fst s)) steps)
              +:+ render_value last +:+ line_break)
  /\ levelText O3LogLevel.Debug = "DEBUG"
  /\ levelText O3LogLevel.Info = "INFO"
  /\ levelText O3LogLevel.Warn = "WARN"
  /\ levelText O3LogLevel.Error = "ERROR"
  /\ (forall l, l <> O3LogLevel.Debug -> l <> O3LogLevel.Info ->
                l <> O3LogLevel.Warn -> l <> O3LogLevel.Error ->
                levelText l = "LOG").
Proof.
  split; [|split; [|split]].
  - rewrite (line_run level message w W p pfx) by done.
    eexists; split; [done|].
    rewrite output_since_emit, ensure_calls_closed by done.
    rewrite render_app, render_header.
    cbn [render render_call render_value].
    by rewrite append_empty_r.
  - rewrite (writeHeader_run level w W p pfx) by done.
    eexists; split; [done|]. split; [done|].
    by rewrite output_since_emit, render_header.
  - intros steps last.
    destruct (assemble_run level steps last w W p pfx Hcan Hout Hpfx)
      as (W' & Hrun & Hw).
    eexists; split; [exact Hrun|].
    unfold output_since. simpl. rewrite Hw, drop_app_length.
    rewrite ensure_calls_closed by done.
    rewrite !render_app, render_header.
    cbn [render render_call render_value].
    by rewrite append_empty_r.
  - repeat split. apply levelText_other.
Qed.

Lemma C5_line_format_witness :
  let w := set_showMillis false (self attachedDefault) in
  exists pbuf m',
    setPrefix (Some "NET") (mkMachine w emptyWorld)
    = Some (tt, mkMachine (set_prefixBuffer pbuf w) emptyWorld)
    /\ line O3LogLevel.Warn "y"
         (mkMachine (set_prefixBuffer pbuf w) emptyWorld)
       = Some (tt, m')
    /\ render (output_since 0
                 (mkMachine (set_prefixBuffer pbuf w) emptyWorld) m')
       = "[NET] WARN: y" +:+ line_break.
Proof.
  intros w.
  destruct (copyPrefix_run (Some "NET") w emptyWorld eq_refl)
    as (pbuf & Hset & _ & Hstr).
  destruct (C5_line_format (set_prefixBuffer pbuf w) emptyWorld
              O3LogLevel.Warn "y" 0%nat "NET" eq_refl eq_refl Hstr eq_refl)
    as [(m' & Hrun & Hout) _].
  exists pbuf, m'. split; [exact Hset|]. split; [exact Hrun|].
  exact Hout.
Defined.

End Format.

(** ** The same message twice *)

Section Twice.

Implicit Types (w : O3SerialWriter) (W : World) (level : O3LogLevel.t).

Lemma header_spec_no_millis pfx sl t t' level :
  header_spec pfx false sl t level = header_spec pfx false sl t' level.
Proof. done. Qed.

(** C6, as the code has it.  On a newly attached writer, [line] called
    twice with the same level and message, with any time passing between
    the calls, sends the same calls to the stream, and so the same bytes,
    both times, when the timestamp is not shown or when [millis()]
    returns the same value at the two calls.  After the first call the
    writer is again what it was right after [begin]. *)
Theorem C6_same_line_twice (stream : nat)
    (options : O3SerialWriterOptions) (level : O3LogLevel.t)
    (message : string) (W : World) (d : Z)
    (Hsame : opt_showMillis options = false
             \/ clock (elapse d W) = clock W) :
  exists m0 m1 m2,
    begin stream options (boot W) = Some (tt, m0)
    /\ line level message m0 = Some (tt, m1)
    /\ self m1 = self m0
    /\ line level message (later d m1) = Some (tt, m2)
    /\ output_since stream m0 m1 = output_since stream (later d m1) m2
    /\ render (output_since stream m0 m1)
       = render (output_since stream (later d m1) m2).
Proof.
  destruct (begin_run stream options newWriter W eq_refl eq_refl)
    as (pbuf & sbuf & Hbegin & _ & _ & Hpfx & _).
  set (pfx := truncate (prefixMaxLen - 1)
                (until_nul (prefix_arg (opt_prefix options)))) in Hpfx.
  set (w0 := configured pbuf sbuf options (set_out (Some stream) newWriter))
    in *.
  assert (Hout : out w0 = Some stream) by done.
  assert (Hp : c_str (prefixBuffer w0) = Some pfx) by done.
  assert (Hclosed : closed w0 = w0) by done.
  exists (mkMachine w0 W). unfold boot. rewrite Hbegin.
  destruct (canWrite w0 level) eqn:Hcan.
  - rewrite (line_run level message w0 W stream pfx) by done.
    do 2 eexists. split; [done|]. split; [done|]. split; [done|].
    unfold later. simpl. rewrite Hclosed.
    rewrite (line_run level message w0 _ stream pfx) by done.
    split; [done|].
    rewrite !output_since_emit.
    rewrite !ensure_calls_closed by done.
    assert (Hhdr :
      header_spec pfx (showMillis w0) (showLevel w0) (clock W) level
      = header_spec pfx (showMillis w0) (showLevel w0)
          (clock (elapse d
             (emit stream
                (header_spec pfx (showMillis w0) (showLevel w0) (clock W)
                   level ++ [Print (PStr message); Println]) W))) level).
    { destruct Hsame as [Hoff|Hclock].
      - change (showMillis w0) with (opt_showMillis options). rewrite Hoff.
        apply header_spec_no_millis.
      - f_equal. unfold elapse in *. simpl in *.
        by rewrite clock_emit, Hclock. }
    by rewrite <- Hhdr.
  - destruct (gated_noop w0 W level Hcan) as (Hl & _).
    destruct (gated_noop w0 (elapse d W) level Hcan) as (Hl' & _).
    rewrite Hl. exists (mkMachine w0 W), (later d (mkMachine w0 W)).
    unfold later. simpl. rewrite Hl'.
    repeat (split; [done|]). done.
Qed.

Lemma C6_same_line_twice_witness :
  exists m0 m1 m2,
    begin 0%nat (mkOptions (Some "NET") false true O3LogLevel.Debug (Some " "))
      (boot emptyWorld) = Some (tt, m0)
    /\ line O3LogLevel.Info "Boot" m0 = Some (tt, m1)
    /\ self m1 = self m0
    /\ line O3LogLevel.Info "Boot" (later 1000 m1) = Some (tt, m2)
    /\ output_since 0 m0 m1 = output_since 0 (later 1000 m1) m2
    /\ render (output_since 0 m0 m1)
       = render (output_since 0 (later 1000 m1) m2).
Proof.
  apply (C6_same_line_twice 0%nat
           (mkOptions (Some "NET") false true O3LogLevel.Debug (Some " "))
           O3LogLevel.Info "Boot" emptyWorld 1000).
  left. reflexivity.
Defined.

(** C6 as stated fails with the timestamp shown, which is the default:
    the two lines carry the two values of [millis()]. *)
Lemma C6_counterexample :
  let m0 := attachedDefault in
  let m1 := default m0 (exec (line O3LogLevel.Info "Boot") m0) in
  let m2 := default m1 (exec (line O3LogLevel.Info "Boot") (later 1000 m1)) in
  begin 0%nat defaultOptions (boot emptyWorld) = Some (tt, m0)
  /\ line O3LogLevel.Info "Boot" m0 = Some (tt, m1)
  /\ self m1 = self m0
  /\ line O3LogLevel.Info "Boot" (later 1000 m1) = Some (tt, m2)
  /\ render (output_since 0 m0 m1) = "0 INFO: Boot" +:+ line_break
  /\ render (output_since 0 (later 1000 m1) m2)
     = "1000 INFO: Boot" +:+ line_break
  /\ render (output_since 0 m0 m1)
     <> render (output_since 0 (later 1000 m1) m2).
Proof.
  intros m0 m1 m2. subst m0 m1 m2.
  split; [vm_compute; reflexivity|].
  split; [vm_compute; reflexivity|].
  split; [vm_compute; reflexivity|].
  split; [vm_compute; reflexivity|].
  split; [vm_compute; reflexivity|].
  split; [vm_compute; reflexivity|].
  vm_compute. discriminate.
Qed.

End Twice.

(** ** When the line state is reset, and what the setters touch *)

Section Frame.

Implicit Types (w : O3SerialWriter) (W : World) (level : O3LogLevel.t).

(** A call that turns an open line into a closed one is a call that ends
    a line, [setEnabled(false)], or a call that configures the writer. *)
Lemma closing_calls c w W w' W' :
  buffers_ok w ->
  call c (mkMachine w W) = Some (tt, mkMachine w' W') ->
  lineOpen w = true -> lineOpen w' = false ->
  terminates_line c = true \/ c = CSetEnabled false
  \/ reconfigures c = true.
Proof.
  intros Hb Hcall Hopen Hclosed.
  pose proof Hb as (Hlp & Hls & [pfx Hpfx] & _).
  destruct c; simpl in *; try by auto.
  - destruct (copyPrefix_run newPrefix w W Hlp) as (buf & Hrun & _).
    unfold setPrefix in Hcall. rewrite Hrun in Hcall.
    injection Hcall as <- <-. simpl in *. congruence.
  - injection Hcall as <- <-. simpl in *. congruence.
  - destruct (copyPartSeparator_run value w W Hls) as (buf & Hrun & _).
    unfold setPartSeparator in Hcall. rewrite Hrun in Hcall.
    injection Hcall as <- <-. simpl in *. congruence.
  - rewrite setEnabled_run in Hcall.
    match type of Hcall with context [if ?b then _ else _] =>
      destruct b end; [|by auto].
    injection Hcall as <- <-. simpl in *. congruence.
  - unfold print, mbind, M_bind, this in Hcall. simpl in Hcall.
    destruct (canWrite w (defaultLevel w)) eqn:Hcan.
    + destruct (canWrite_true_inv _ _ Hcan) as (_ & [p Hout] & _).
      rewrite (printWithLevel_run _ _ _ _ p pfx) in Hcall by done.
      injection Hcall as <- <-. simpl in *. congruence.
    + destruct (gated_noop w W _ Hcan) as (_ & _ & Hn & _).
      rewrite Hn in Hcall. injection Hcall as <- <-. congruence.
  - destruct (canWrite w level) eqn:Hcan.
    + destruct (canWrite_true_inv _ _ Hcan) as (_ & [p Hout] & _).
      rewrite (printWithLevel_run _ _ _ _ p pfx) in Hcall by done.
      injection Hcall as <- <-. simpl in *. congruence.
    + destruct (gated_noop w W _ Hcan) as (_ & _ & Hn & _).
      rewrite Hn in Hcall. injection Hcall as <- <-. congruence.
  - injection Hcall as <- <-. congruence.
Qed.

(** C7. The line state is reset to closed, with [activeLevel] back at
    [defaultLevel], by the calls that end a line once the gate has let
    them through, by [setEnabled(false)], and by [configure] (and so by
    [begin]); and a call that ends with a line that was open now closed is
    one of these.  [setEnabled(true)] changes the flag only.  [setPrefix],
    [setPartSeparator] and [setMinLevel] change their own member and
    nothing else: the line state stays, and the streams, with any header
    already written, stay as they were. *)
Theorem C7_reset_and_frame (w : O3SerialWriter) (W : World)
    (Hb : buffers_ok w) :
  (lineOpen (closed w) = false /\ activeLevel (closed w) = defaultLevel w)
  /\ (forall level, canWrite w level = true ->
        (forall message, exists W',
            line level message (mkMachine w W)
            = Some (tt, mkMachine (closed w) W'))
        /\ (forall first rest, exists W',
               parts level first rest (mkMachine w W)
               = Some (tt, mkMachine (closed w) W'))
        /\ (forall value, exists W',
               printlnWithLevel level value (mkMachine w W)
               = Some (tt, mkMachine (closed w) W'))
        /\ (level = defaultLevel w -> exists W',
               println0 (mkMachine w W)
               = Some (tt, mkMachine (closed w) W')))
  /\ setEnabled false (mkMachine w W)
     = Some (tt, mkMachine (closed (set_enabled false w)) W)
  /\ setEnabled true (mkMachine w W)
     = Some (tt, mkMachine (set_enabled true w) W)
  /\ (forall options, exists pbuf sbuf,
         configure options (mkMachine w W)
         = Some (tt, mkMachine (configured pbuf sbuf options w) W)
         /\ lineOpen (configured pbuf sbuf options w) = false
         /\ activeLevel (configured pbuf sbuf options w) = defaultLevel w)
  /\ (forall c w' W',
         call c (mkMachine w W) = Some (tt, mkMachine w' W') ->
         lineOpen w = true -> lineOpen w' = false ->
         terminates_line c = true \/ c = CSetEnabled false
         \/ reconfigures c = true)
  /\ (forall newPrefix, exists buf,
         setPrefix newPrefix (mkMachine w W)
         = Some (tt, mkMachine (set_prefixBuffer buf w) W))
  /\ (forall value, exists buf,
         setPartSeparator value (mkMachine w W)
         = Some (tt, mkMachine (set_partSeparatorBuffer buf w) W))
  /\ (forall level,
         setMinLevel level (mkMachine w W)
         = Some (tt, mkMachine (set_minLevel level w) W)).
Proof.
  pose proof Hb as (Hlp & Hls & [pfx Hpfx] & [sep Hsep]).
  split; [by destruct w|]. split.
  { intros level Hcan.
    destruct (canWrite_true_inv _ _ Hcan) as (_ & [p Hout] & _).
    split; [|split; [|split]].
    - intros message. eexists. by apply (line_run _ _ _ _ p pfx).
    - intros first rest. eexists. by apply (parts_run _ _ _ _ _ p pfx sep).
    - intros value. eexists. by apply (printlnWithLevel_run _ _ _ _ p pfx).
    - intros ->. eexists. by apply (println0_run _ _ p pfx). }
  split; [done|]. split; [done|]. split.
  { intros options.
    destruct (configure_run options w W Hlp Hls)
      as (pbuf & sbuf & Hrun & _).
    by exists pbuf, sbuf. }
  split; [intros c w' W'; by apply closing_calls|].
  split; [|split; [|done]].
  - intros newPrefix.
    destruct (copyPrefix_run newPrefix w W Hlp) as (buf & Hrun & _).
    by exists buf.
  - intros value.
    destruct (copyPartSeparator_run value w W Hls) as (buf & Hrun & _).
    by exists buf.
Qed.

Lemma C7_reset_and_frame_witness :
  let w := self midLine in
  let W := world midLine in
  lineOpen w = true
  /\ setEnabled false (mkMachine w W)
     = Some (tt, mkMachine (closed (set_enabled false w)) W)
  /\ (exists buf,
         setPrefix (Some "BLE") (mkMachine w W)
         = Some (tt, mkMachine (set_prefixBuffer buf w) W))
  /\ (exists W',
         line O3LogLevel.Error "x" (mkMachine w W)
         = Some (tt, mkMachine (closed w) W')).
Proof.
  intros w W.
  assert (Hb : buffers_ok w).
  { repeat split; [eexists; reflexivity ..]. }
  destruct (C7_reset_and_frame w W Hb)
    as (_ & Hend & Hoff & _ & _ & _ & Hset & _).
  split; [reflexivity|]. split; [exact Hoff|].
  split; [apply Hset|].
  destruct (Hend O3LogLevel.Error eq_refl) as (Hline & _).
  apply Hline.
Defined.

End Frame.

(** ** The fixed buffers *)

Section Capacity.

Implicit Types (w : O3SerialWriter) (W : World) (value : c_ptr).

(** C8. Copying a configuration string never writes outside its array and
    always leaves a terminated string in it.  The prefix array keeps the
    first 31 characters of the argument and a terminator after them; the
    separator array keeps the first 7.  A null prefix is stored as the
    empty string; a null or empty separator is stored as one space.  A
    prefix of more than 31 characters is stored as its first 31, and the
    header then starts with ['['], those 31 characters, and ["] "]. *)
Theorem C8_bounded_copy (w : O3SerialWriter) (W : World)
    (Hlp : length (prefixBuffer w) = prefixMaxLen)
    (Hls : length (partSeparatorBuffer w) = partSepMaxLen) :
  (forall value,
      let stored := truncate 31 (until_nul (prefix_arg value)) in
      exists buf,
        setPrefix value (mkMachine w W)
        = Some (tt, mkMachine (set_prefixBuffer buf w) W)
        /\ length buf = 32%nat
        /\ c_str buf = Some stored
        /\ (length (chars stored) <= 31)%nat
        /\ buf !! length (chars stored) = Some NUL
        /\ (forall level p, out w = Some p -> stored <> EmptyString ->
               exists m',
                 writeHeader level (mkMachine (set_prefixBuffer buf w) W)
                 = Some (tt, m')
                 /\ take 3 (output_since p
                              (mkMachine (set_prefixBuffer buf w) W) m')
                    = [Print (PChar "["); Print (PStr stored);
                       Print (PStr "] ")]))
  /\ (forall value,
         let stored := truncate 7 (until_nul (separator_arg value)) in
         exists buf,
           setPartSeparator value (mkMachine w W)
           = Some (tt, mkMachine (set_partSeparatorBuffer buf w) W)
           /\ length buf = 8%nat
           /\ c_str buf = Some stored
           /\ (length (chars stored) <= 7)%nat
           /\ buf !! length (chars stored) = Some NUL)
  /\ truncate 31 (until_nul (prefix_arg None)) = ""
  /\ truncate 7 (until_nul (separator_arg None)) = " "
  /\ truncate 7 (until_nul (separator_arg (Some ""))) = " "
  /\ (forall s, nul_free s = true -> (31 < length (chars s))%nat ->
        truncate 31 (until_nul (prefix_arg (Some s))) = truncate 31 s
        /\ length (chars (truncate 31 s)) = 31%nat)
  /\ (forall s, nul_free s = true -> (7 < length (chars s))%nat ->
        truncate 7 (until_nul (separator_arg (Some s))) = truncate 7 s
        /\ length (chars (truncate 7 s)) = 7%nat).
Proof.
  split; [|split].
  - intros value stored.
    destruct (copyPrefix_run value w W Hlp) as (buf & Hrun & Hlen & Hstr).
    change (prefixMaxLen - 1)%nat with 31%nat in Hstr. fold stored in Hstr.
    exists buf. split; [exact Hrun|]. split; [exact Hlen|].
    split; [exact Hstr|]. split; [apply length_chars_truncate|].
    split; [by apply c_str_terminated|].
    intros level p Hout Hne.
    rewrite (writeHeader_run level _ W p stored) by done.
    eexists; split; [done|]. rewrite output_since_emit.
    unfold header_spec. by destruct stored.
  - intros value stored.
    destruct (copyPartSeparator_run value w W Hls)
      as (buf & Hrun & Hlen & Hstr).
    change (partSepMaxLen - 1)%nat with 7%nat in Hstr. fold stored in Hstr.
    exists buf. split; [exact Hrun|]. split; [exact Hlen|].
    split; [exact Hstr|]. split; [apply length_chars_truncate|].
    by apply c_str_terminated.
  - split; [done|]. split; [done|]. split; [done|]. split.
    + intros s Hfree Hlong. unfold prefix_arg.
      rewrite until_nul_free by done.
      split; [done|]. apply length_chars_truncate_full. lia.
    + intros s Hfree Hlong.
      assert (Harg : separator_arg (Some s) = s).
      { destruct s as [|c s]; simpl in *; [lia|].
        apply andb_prop in Hfree as [Hc _].
        apply negb_true_iff in Hc. by rewrite Hc. }
      rewrite Harg, until_nul_free by done.
      split; [done|]. apply length_chars_truncate_full. lia.
Qed.

Lemma C8_bounded_copy_witness :
  let w := self attachedDefault in
  let W := world attachedDefault in
  let long := "0123456789abcdefghijklmnopqrstuvwxyz" in
  exists buf m',
    setPrefix (Some long) (mkMachine w W)
    = Some (tt, mkMachine (set_prefixBuffer buf w) W)
    /\ length buf = 32%nat
    /\ c_str buf = Some "0123456789abcdefghijklmnopqrstu"
    /\ buf !! 31%nat = Some NUL
    /\ writeHeader O3LogLevel.Info (mkMachine (set_prefixBuffer buf w) W)
       = Some (tt, m')
    /\ take 3 (output_since 0 (mkMachine (set_prefixBuffer buf w) W) m')
       = [Print (PChar "["); Print (PStr "0123456789abcdefghijklmnopqrstu");
          Print (PStr "] ")].
Proof.
  intros w W long.
  destruct (C8_bounded_copy w W eq_refl eq_refl) as (Hprefix & _).
  destruct (Hprefix (Some long))
    as (buf & Hrun & Hlen & Hstr & _ & Hnul & Hhdr).
  destruct (Hhdr O3LogLevel.Info 0%nat eq_refl) as (m' & Hw & Hout);
    [discriminate|].
  exists buf, m'.
  split; [exact Hrun|]. split; [exact Hlen|]. split; [exact Hstr|].
  split; [exact Hnul|]. split; [exact Hw|]. exact Hout.
Defined.

End Capacity.

(** ** The default level *)

Section DefaultLevel.

Implicit Types (w : O3SerialWriter) (W : World) (m : Machine).

(** C9. In every machine a program can reach, [defaultLevel] is [Info]:
    no method assigns it.  So [print] and [println] with a value are
    [printWithLevel] and [printlnWithLevel] at [Info], the bare [println]
    is gated by [canWrite(Info)] and opens its line at [Info], and the
    reset that follows a line break puts [activeLevel] back to [Info].
    On the stream this means: when the gate lets [Info] through and no
    line is open, [print] writes the header for [Info] and the value and
    leaves the line open with [activeLevel] at [Info]; [println] with a
    value writes that header, the value and a line break; the bare
    [println] writes that header and a line break; the last two leave the
    line closed with [activeLevel] at [Info]; and the header, when the
    label is shown, ends in ["INFO"] and [": "].  When the gate refuses
    [Info] the three calls do nothing. *)
Theorem C9_default_level_is_info (m : Machine) (Hreach : reachable m) :
  defaultLevel (self m) = O3LogLevel.Info
  /\ (forall value,
         print value m = printWithLevel O3LogLevel.Info value m)
  /\ (forall value,
         println value m = printlnWithLevel O3LogLevel.Info value m)
  /\ println0 m
     = (if negb (canWrite (self m) O3LogLevel.Info) then Some (tt, m)
        else (ensureLineHeader O3LogLevel.Info;;
              out_println;;
              resetLineState) m)
  /\ (exists m',
         resetLineState m = Some (tt, m')
         /\ lineOpen (self m') = false
         /\ activeLevel (self m') = O3LogLevel.Info)
  /\ (forall p pfx,
         canWrite (self m) O3LogLevel.Info = true ->
         out (self m) = Some p ->
         c_str (prefixBuffer (self m)) = Some pfx ->
         lineOpen (self m) = false ->
         let header :=
           header_spec pfx (showMillis (self m)) (showLevel (self m))
             (clock (world m)) O3LogLevel.Info in
         (forall value,
             print value m
             = Some (tt, mkMachine (opened O3LogLevel.Info (self m))
                           (emit p (header ++ [Print value]) (world m))))
         /\ lineOpen (opened O3LogLevel.Info (self m)) = true
         /\ activeLevel (opened O3LogLevel.Info (self m)) = O3LogLevel.Info
         /\ (forall value,
                println value m
                = Some (tt, mkMachine (closed (self m))
                              (emit p (header ++ [Print value; Println])
                                 (world m))))
         /\ println0 m
            = Some (tt, mkMachine (closed (self m))
                          (emit p (header ++ [Println]) (world m)))
         /\ lineOpen (closed (self m)) = false
         /\ activeLevel (closed (self m)) = O3LogLevel.Info
         /\ (showLevel (self m) = true ->
             header
             = header_spec pfx (showMillis (self m)) false (clock (world m))
                 O3LogLevel.Info
               ++ [Print (PStr "INFO"); Print (PStr ": ")]))
  /\ (canWrite (self m) O3LogLevel.Info = false ->
      (forall value, print value m = Some (tt, m))
      /\ (forall value, println value m = Some (tt, m))
      /\ println0 m = Some (tt, m)).
Proof.
  destruct (reachable_ok m Hreach) as (_ & Hd & _).
  destruct m as [w W]. simpl in *.
  assert (Hprint : forall value,
    print value (mkMachine w W)
    = printWithLevel O3LogLevel.Info value (mkMachine w W)).
  { intros value. unfold print, mbind, M_bind, this. simpl. by rewrite Hd. }
  assert (Hprintln : forall value,
    println value (mkMachine w W)
    = printlnWithLevel O3LogLevel.Info value (mkMachine w W)).
  { intros value. unfold println, mbind, M_bind, this. simpl.
    by rewrite Hd. }
  split; [exact Hd|]. split; [exact Hprint|]. split; [exact Hprintln|].
  split; [|split; [|split]].
  - unfold println0. unfold mbind at 1, M_bind at 1, this at 1. simpl.
    rewrite Hd. by destruct (canWrite w O3LogLevel.Info).
  - rewrite resetLineState_run. eexists; split; [done|].
    by destruct w.
  - intros p pfx Hcan Hout Hpfx Hclosed.
    split; [|split; [|split; [|split; [|split; [|split; [|split]]]]]].
    + intros value. rewrite Hprint.
      rewrite (printWithLevel_run _ _ _ _ p pfx) by done.
      by rewrite ensure_calls_closed.
    + by destruct w.
    + by destruct w.
    + intros value. rewrite Hprintln.
      rewrite (printlnWithLevel_run _ _ _ _ p pfx) by done.
      by rewrite ensure_calls_closed.
    + rewrite (println0_run _ _ p pfx) by (by rewrite ?Hd).
      by rewrite Hd, ensure_calls_closed.
    + by destruct w.
    + by destruct w.
    + intros Hshow. unfold header_spec. rewrite Hshow.
      rewrite app_nil_r. by rewrite <- app_assoc.
  - intros Hcan.
    destruct (gated_noop w W _ Hcan) as (_ & _ & Hn & Hnl).
    split; [|split].
    + intros value. by rewrite Hprint.
    + intros value. by rewrite Hprintln.
    + unfold println0. unfold mbind at 1, M_bind at 1, this at 1. simpl.
      by rewrite Hd, Hcan.
Qed.

Lemma C9_default_level_is_info_witness :
  (defaultLevel (self midLine) = O3LogLevel.Info
   /\ print (PStr "b") midLine
      = printWithLevel O3LogLevel.Info (PStr "b") midLine)
  /\ print (PStr "b") attachedDefault
     = Some (tt, mkMachine (opened O3LogLevel.Info (self attachedDefault))
                   (emit 0 [Print (PNum 0); Print (PChar " ");
                            Print (PStr "INFO"); Print (PStr ": ");
                            Print (PStr "b")] (world attachedDefault)))
  /\ println0 attachedDefault
     = Some (tt, mkMachine (closed (self attachedDefault))
                   (emit 0 [Print (PNum 0); Print (PChar " ");
                            Print (PStr "INFO"); Print (PStr ": ");
                            Println] (world attachedDefault))).
Proof.
  assert (Hreach : reachable midLine).
  { exists emptyWorld,
      [CBegin 0%nat defaultOptions;
       CPrintWithLevel O3LogLevel.Info (PStr "a")].
    vm_compute. reflexivity. }
  assert (Hreach0 : reachable attachedDefault).
  { exists emptyWorld, [CBegin 0%nat defaultOptions].
    vm_compute. reflexivity. }
  destruct (C9_default_level_is_info midLine Hreach) as (Hd & Hp & _).
  split; [split; [exact Hd | apply Hp]|].
  destruct (C9_default_level_is_info attachedDefault Hreach0)
    as (_ & _ & _ & _ & _ & Hopen & _).
  destruct (Hopen 0%nat EmptyString eq_refl eq_refl eq_refl eq_refl)
    as (Hprint & _ & _ & _ & Hln & _).
  split; [apply Hprint | exact Hln].
Defined.

End DefaultLevel.

(** ** [None] as the level of a write *)

Section NoneLevel.

Implicit Types (w : O3SerialWriter) (W : World).

(** C10. [None] is the suppress-all value only as a threshold.  As the
    level of a write it passes the gate whenever the writer is enabled and
    attached and the threshold is not [None]: its value 255 is at least
    every threshold a [uint8_t] can hold.  Its label is LOG, so a header
    written for it with the label shown ends in ["LOG"] and [": "]. *)
Theorem C10_none_as_write_level (w : O3SerialWriter)
    (Hen : enabled w = true) (Hatt : is_Some (out w))
    (Hmin : minLevel w <> O3LogLevel.None)
    (Hu8 : O3LogLevel.is_uint8 (minLevel w)) :
  canWrite w O3LogLevel.None = true
  /\ levelText O3LogLevel.None = "LOG"
  /\ (forall W p pfx value,
         out w = Some p -> c_str (prefixBuffer w) = Some pfx ->
         lineOpen w = false ->
         printWithLevel O3LogLevel.None value (mkMachine w W)
         = Some (tt, mkMachine (opened O3LogLevel.None w)
                       (emit p (header_spec pfx (showMillis w) (showLevel w)
                                  (clock W) O3LogLevel.None
                                ++ [Print value]) W))
         /\ header_spec pfx (showMillis w) true (clock W) O3LogLevel.None
            = header_spec pfx (showMillis w) false (clock W)
                O3LogLevel.None
              ++ [Print (PStr "LOG"); Print (PStr ": ")]).
Proof.
  assert (Hcan : canWrite w O3LogLevel.None = true).
  { unfold canWrite. rewrite Hen. simpl.
    rewrite bool_decide_eq_true_2 by done. simpl.
    destruct (Z.eqb_spec (minLevel w) O3LogLevel.None); [done|].
    apply Z.geb_le. unfold O3LogLevel.is_uint8, O3LogLevel.None in *. lia. }
  split; [exact Hcan|]. split; [done|].
  intros W p pfx value Hout Hpfx Hclosed. split.
  - rewrite (printWithLevel_run _ _ _ _ p pfx) by done.
    by rewrite ensure_calls_closed.
  - unfold header_spec. rewrite app_nil_r. by rewrite <- app_assoc.
Qed.

Lemma C10_none_as_write_level_witness :
  let w := set_minLevel O3LogLevel.Error
             (set_showMillis false (self attachedDefault)) in
  canWrite w O3LogLevel.None = true
  /\ printWithLevel O3LogLevel.None (PStr "x") (mkMachine w emptyWorld)
     = Some (tt, mkMachine (opened O3LogLevel.None w)
                   (emit 0 [Print (PStr "LOG"); Print (PStr ": ");
                            Print (PStr "x")] emptyWorld)).
Proof.
  intros w.
  assert (Hatt : is_Some (out w)) by (eexists; reflexivity).
  assert (Hmin : minLevel w <> O3LogLevel.None) by discriminate.
  assert (Hu8 : O3LogLevel.is_uint8 (minLevel w)) by (vm_compute; split; discriminate).
  destruct (C10_none_as_write_level w eq_refl Hatt Hmin Hu8)
    as (Hcan & _ & Hprint).
  split; [exact Hcan|].
  destruct (Hprint emptyWorld 0%nat EmptyString (PStr "x")
              eq_refl eq_refl eq_refl) as [Hrun _].
  exact Hrun.
Defined.

End NoneLevel.

(** ** Whole programs: safety and the streams *)

Section Programs.

Implicit Types (w : O3SerialWriter) (W : World) (m : Machine) (c : Call).

Lemma written_streams W W' q :
  streams W' = streams W -> written W' q = written W q.
Proof. unfold written. by intros ->. Qed.

(** What one call does to the attachment and to the streams: it keeps [out]
    unless it is a [begin], and it either leaves the streams alone or sends
    calls to the stream [out] points to when it returns. *)
Lemma call_effect c w W w' W' :
  buffers_ok w ->
  call c (mkMachine w W) = Some (tt, mkMachine w' W') ->
  (attaches c = false -> out w' = out w)
  /\ ((exists p cs, out w' = Some p /\ streams W' = streams (emit p cs W))
      \/ streams W' = streams W).
Proof.
  intros Hb Hcall.
  pose proof Hb as (Hlp & Hls & [pfx Hpfx] & [sep Hsep]).
  assert (Hline : forall level message,
    line level message (mkMachine w W) = Some (tt, mkMachine w' W') ->
    out w' = out w
    /\ ((exists p cs, out w' = Some p /\ streams W' = streams (emit p cs W))
        \/ streams W' = streams W)).
  { intros level message H. destruct (canWrite w level) eqn:Hcan.
    - destruct (canWrite_true_inv _ _ Hcan) as (_ & [p Hout] & _).
      rewrite (line_run _ _ _ _ p pfx) in H by done.
      injection H as <- <-. split; [by destruct w|]. left.
      do 2 eexists. split; [|done]. by destruct w.
    - destruct (gated_noop w W level Hcan) as (Hn & _).
      rewrite Hn in H. injection H as <- <-. by auto. }
  assert (Hparts : forall level first rest,
    parts level first rest (mkMachine w W) = Some (tt, mkMachine w' W') ->
    out w' = out w
    /\ ((exists p cs, out w' = Some p /\ streams W' = streams (emit p cs W))
        \/ streams W' = streams W)).
  { intros level first rest H. destruct (canWrite w level) eqn:Hcan.
    - destruct (canWrite_true_inv _ _ Hcan) as (_ & [p Hout] & _).
      rewrite (parts_run _ _ _ _ _ p pfx sep) in H by done.
      injection H as <- <-. split; [by destruct w|]. left.
      do 2 eexists. split; [|done]. by destruct w.
    - destruct (gated_noop w W level Hcan) as (_ & Hn & _).
      rewrite Hn in H. injection H as <- <-. by auto. }
  assert (Hprint : forall level value,
    printWithLevel level value (mkMachine w W)
    = Some (tt, mkMachine w' W') ->
    out w' = out w
    /\ ((exists p cs, out w' = Some p /\ streams W' = streams (emit p cs W))
        \/ streams W' = streams W)).
  { intros level value H. destruct (canWrite w level) eqn:Hcan.
    - destruct (canWrite_true_inv _ _ Hcan) as (_ & [p Hout] & _).
      rewrite (printWithLevel_run _ _ _ _ p pfx) in H by done.
      injection H as <- <-. split; [by destruct w|]. left.
      do 2 eexists. split; [|done]. by destruct w.
    - destruct (gated_noop w W level Hcan) as (_ & _ & Hn & _).
      rewrite Hn in H. injection H as <- <-. by auto. }
  assert (Hprintln : forall level value,
    printlnWithLevel level value (mkMachine w W)
    = Some (tt, mkMachine w' W') ->
    out w' = out w
    /\ ((exists p cs, out w' = Some p /\ streams W' = streams (emit p cs W))
        \/ streams W' = streams W)).
  { intros level value H. destruct (canWrite w level) eqn:Hcan.
    - destruct (canWrite_true_inv _ _ Hcan) as (_ & [p Hout] & _).
      rewrite (printlnWithLevel_run _ _ _ _ p pfx) in H by done.
      injection H as <- <-. split; [by destruct w|]. left.
      do 2 eexists. split; [|done]. by destruct w.
    - destruct (gated_noop w W level Hcan) as (_ & _ & _ & Hn).
      rewrite Hn in H. injection H as <- <-. by auto. }
  destruct c; simpl in Hcall;
    try (by (edestruct Hline as [? ?]; [exact Hcall|]; split; auto));
    try (by (edestruct Hparts as [? ?]; [exact Hcall|]; split; auto));
    try (by (edestruct Hprint as [? ?]; [exact Hcall|]; split; auto));
    try (by (edestruct Hprintln as [? ?]; [exact Hcall|]; split; auto)).
  - destruct (beginSerial_run port baud options w W Hlp Hls)
      as (pbuf & sbuf & Hrun & _).
    rewrite Hrun in Hcall. injection Hcall as <- <-.
    split; [done|]. left. by exists port, [SerialBegin baud].
  - destruct (begin_run stream options w W Hlp Hls)
      as (pbuf & sbuf & Hrun & _).
    rewrite Hrun in Hcall. injection Hcall as <- <-.
    split; [done|]. by right.
  - destruct (configure_run options w W Hlp Hls)
      as (pbuf & sbuf & Hrun & _).
    rewrite Hrun in Hcall. injection Hcall as <- <-.
    split; [done|]. by right.
  - destruct (copyPrefix_run newPrefix w W Hlp) as (buf & Hrun & _).
    unfold setPrefix in Hcall. rewrite Hrun in Hcall.
    injection Hcall as <- <-. split; [done|]. by right.
  - injection Hcall as <- <-. split; [done|]. by right.
  - destruct (copyPartSeparator_run value w W Hls) as (buf & Hrun & _).
    unfold setPartSeparator in Hcall. rewrite Hrun in Hcall.
    injection Hcall as <- <-. split; [done|]. by right.
  - rewrite setEnabled_run in Hcall. injection Hcall as <- <-.
    split; [|by right].
    intros _. match goal with |- context [if ?b then _ else _] =>
                by destruct b end.
  - destruct (canWrite w (defaultLevel w)) eqn:Hcan.
    + destruct (canWrite_true_inv _ _ Hcan) as (_ & [p Hout] & _).
      rewrite (println0_run _ _ p pfx) in Hcall by done.
      injection Hcall as <- <-. split; [by destruct w|]. left.
      do 2 eexists. split; [|done]. by destruct w.
    + unfold println0 in Hcall.
      unfold mbind at 1, M_bind at 1, this at 1 in Hcall. simpl in Hcall.
      rewrite Hcan in Hcall. injection Hcall as <- <-. by auto.
  - injection Hcall as <- <-. split; [done|]. by right.
Qed.

(** X1. No program makes the writer misbehave.  Whatever calls a sketch
    makes on a newly constructed writer, in whatever order and with
    whatever arguments (null strings, strings longer than the arrays, writes
    before [begin]), every call returns: [out] is never used while null, no
    store leaves an array, and both arrays still hold a terminated string
    of their fixed size afterwards. *)
Theorem X1_no_undefined_behaviour (W : World) (cs : list Call) :
  exists m,
    run cs (boot W) = Some (tt, m)
    /\ length (prefixBuffer (self m)) = prefixMaxLen
    /\ length (partSeparatorBuffer (self m)) = partSepMaxLen
    /\ is_Some (c_str (prefixBuffer (self m)))
    /\ is_Some (c_str (partSeparatorBuffer (self m))).
Proof.
  destruct (run_ok cs (boot W) (boot_ok W)) as (m & Hrun & Hb & _).
  by exists m.
Qed.

Lemma run_before_begin cs :
  forall w W,
    machine_ok (mkMachine w W) -> out w = None ->
    Forall (fun c => attaches c = false) cs ->
    exists w' W',
      run cs (mkMachine w W) = Some (tt, mkMachine w' W')
      /\ out w' = None /\ streams W' = streams W.
Proof.
  induction cs as [|c cs IH]; intros w W Hok Hout Hcs.
  - by exists w, W.
  - apply Forall_cons in Hcs as [Hc Hcs].
    destruct (call_ok c w W Hok) as (w1 & W1 & Hcall & Hok1).
    destruct Hok as (Hb & _).
    destruct (call_effect c w W w1 W1 Hb Hcall) as (Hkeep & Heff).
    assert (Hout1 : out w1 = None) by (by rewrite Hkeep).
    assert (Hs1 : streams W1 = streams W).
    { destruct Heff as [(p & ? & Hp & _)|?]; [congruence | done]. }
    destruct (IH w1 W1 Hok1 Hout1 Hcs) as (w' & W' & Hrun & Ho & Hs).
    exists w', W'. split; [|split; [done | congruence]].
    simpl. unfold mbind, M_bind. by rewrite Hcall.
Qed.

(** X2. Before the first [begin] nothing is written.  A program on a new
    writer that never calls [begin] leaves [out] null, and no stream
    receives anything, whatever it configures, enables or logs. *)
Theorem X2_silent_before_begin (W : World) (cs : list Call)
    (Hcs : Forall (fun c => attaches c = false) cs) :
  exists m,
    run cs (boot W) = Some (tt, m)
    /\ out (self m) = None
    /\ streams (world m) = streams W.
Proof.
  destruct (run_before_begin cs newWriter W (boot_ok W) eq_refl Hcs)
    as (w' & W' & Hrun & Hout & Hs).
  by exists (mkMachine w' W').
Qed.

Lemma X2_silent_before_begin_witness :
  exists m,
    run [CConfigure defaultOptions; CSetPrefix (Some "NET");
         CInfo "Boot"; CErrorParts (PStr "HTTP") [PNum 503];
         CPrint (PStr "x"); CPrintln; CSetEnabled false; CSetEnabled true]
      (boot emptyWorld) = Some (tt, m)
    /\ out (self m) = None
    /\ streams (world m) = streams emptyWorld.
Proof.
  apply X2_silent_before_begin.
  repeat (apply List.Forall_cons; [reflexivity|]). apply List.Forall_nil.
Defined.

(** X3. A call touches one stream only.  In a machine a program can reach,
    every call returns, and every stream other than the one the writer is
    attached to when the call returns holds exactly what it held before. *)
Theorem X3_other_streams_untouched (m : Machine) (Hreach : reachable m)
    (c : Call) :
  exists m',
    call c m = Some (tt, m')
    /\ forall q, out (self m') <> Some q ->
                 written (world m') q = written (world m) q.
Proof.
  pose proof (reachable_ok m Hreach) as Hok. destruct m as [w W].
  destruct (call_ok c w W Hok) as (w' & W' & Hcall & _).
  exists (mkMachine w' W'). split; [done|]. simpl.
  destruct Hok as (Hb & _).
  destruct (call_effect c w W w' W' Hb Hcall) as (_ & Heff).
  intros q Hq. destruct Heff as [(p & cs & Hp & Hs)|Hs].
  - rewrite (written_streams _ _ _ Hs). apply written_emit_ne. congruence.
  - by apply written_streams.
Qed.

Lemma X3_other_streams_untouched_witness :
  exists m',
    call (CWarn "y") midLine = Some (tt, m')
    /\ forall q, out (self m') <> Some q ->
                 written (world m') q = written (world midLine) q.
Proof.
  apply X3_other_streams_untouched.
  exists emptyWorld,
    [CBegin 0%nat defaultOptions;
     CPrintWithLevel O3LogLevel.Info (PStr "a")].
  vm_compute. reflexivity.
Defined.

End Programs.

(** ** Enabling, attaching and the threshold *)

Section Switches.

Implicit Types (w : O3SerialWriter) (W : World) (level : O3LogLevel.t).

(** X5. Disabling in the middle of a line forgets the line but does not end
    it on the stream.  With a line open, [setEnabled(false)] followed by
    [setEnabled(true)] sends nothing, and the next write that passes the
    gate, even at the level of the open line, starts with a header and no
    line break: the header lands on the physical line that was left
    unfinished.  Without the two calls the same write only appends its
    value. *)
Theorem X5_disable_forgets_open_line (w : O3SerialWriter) (W : World)
    (level : O3LogLevel.t) (value : Printable) (p : nat) (pfx : string)
    (Hopen : lineOpen w = true) (Hlevel : activeLevel w = level)
    (Hcan : canWrite w level = true) (Hout : out w = Some p)
    (Hpfx : c_str (prefixBuffer w) = Some pfx) :
  (setEnabled false;; setEnabled true) (mkMachine w W)
  = Some (tt, mkMachine (closed w) W)
  /\ (setEnabled false;; setEnabled true;; printWithLevel level value)
       (mkMachine w W)
     = Some (tt, mkMachine w
                   (emit p (header_spec pfx (showMillis w) (showLevel w)
                              (clock W) level ++ [Print value]) W))
  /\ printWithLevel level value (mkMachine w W)
     = Some (tt, mkMachine w (emit p [Print value] W)).
Proof.
  destruct (canWrite_true_inv _ _ Hcan) as (Hen & _).
  assert (Hback : set_enabled true (closed (set_enabled false w)) = closed w).
  { destruct w; simpl in *. by subst. }
  split; [|split].
  - unfold mbind at 1, M_bind at 1. rewrite !setEnabled_run.
    by rewrite Hback.
  - unfold mbind at 1, M_bind at 1. rewrite setEnabled_run.
    unfold mbind at 1, M_bind at 1. rewrite setEnabled_run.
    rewrite Hback.
    rewrite (printWithLevel_run level value _ W p pfx)
      by (by destruct w).
    rewrite ensure_calls_closed by (by destruct w).
    rewrite opened_closed, opened_same by done. by destruct w.
  - rewrite (printWithLevel_run level value w W p pfx) by done.
    rewrite ensure_calls_same by done.
    by rewrite opened_same.
Qed.

Lemma X5_disable_forgets_open_line_witness :
  let w := self midLine in
  let W := world midLine in
  (setEnabled false;; setEnabled true;;
   printWithLevel O3LogLevel.Info (PStr "b")) (mkMachine w W)
  = Some (tt, mkMachine w
                (emit 0 [Print (PNum 0); Print (PChar " ");
                         Print (PStr "INFO"); Print (PStr ": ");
                         Print (PStr "b")] W)).
Proof.
  intros w W.
  destruct (X5_disable_forgets_open_line w W O3LogLevel.Info (PStr "b")
              0%nat EmptyString eq_refl eq_refl eq_refl eq_refl eq_refl)
    as (_ & H & _).
  exact H.
Defined.

(** X6. [begin] attaches but does not enable.  [begin] (like [configure])
    leaves the [enabled] flag as it was: a writer disabled before [begin]
    lets nothing through afterwards, at any level, and on an enabled writer
    the gate after [begin] lets a level through exactly when the threshold
    of the options is not [None] and not above the level. *)
Theorem X6_begin_keeps_enabled (w : O3SerialWriter) (W : World)
    (stream : nat) (options : O3SerialWriterOptions)
    (Hlp : length (prefixBuffer w) = prefixMaxLen)
    (Hls : length (partSeparatorBuffer w) = partSepMaxLen) :
  exists w',
    begin stream options (mkMachine w W) = Some (tt, mkMachine w' W)
    /\ out w' = Some stream
    /\ enabled w' = enabled w
    /\ (enabled w = false -> forall level, canWrite w' level = false)
    /\ (enabled w = true -> forall level,
          canWrite w' level = true
          <-> opt_minLevel options <> O3LogLevel.None
              /\ opt_minLevel options <= level).
Proof.
  destruct (begin_run stream options w W Hlp Hls)
    as (pbuf & sbuf & Hrun & _).
  eexists. split; [exact Hrun|]. split; [done|]. split; [done|]. split.
  - intros Hoff level. unfold canWrite. simpl. by rewrite Hoff.
  - intros Hon level. unfold canWrite. simpl. rewrite Hon. simpl.
    destruct (Z.eqb_spec (opt_minLevel options) O3LogLevel.None) as [He|Hne].
    + split; [done | by intros [? _]].
    + rewrite Z.geb_le. split; [by auto | by intros [_ ?]].
Qed.

Lemma X6_begin_keeps_enabled_witness :
  let w := set_enabled false newWriter in
  exists w',
    begin 0%nat defaultOptions (mkMachine w emptyWorld)
    = Some (tt, mkMachine w' emptyWorld)
    /\ enabled w' = false
    /\ canWrite w' O3LogLevel.Error = false.
Proof.
  intros w.
  destruct (X6_begin_keeps_enabled w emptyWorld 0%nat defaultOptions
              eq_refl eq_refl) as (w' & Hrun & _ & Hen & Hoff & _).
  exists w'. split; [exact Hrun|]. split; [exact Hen|].
  apply Hoff. reflexivity.
Defined.

(** X7. Strings that fit come back whole.  A prefix of at most 31
    characters set with [setPrefix], and a separator of 1 to 7 characters
    set with [setPartSeparator], are read back from the arrays exactly as
    given, whatever the arrays held before. *)
Theorem X7_fitting_strings_round_trip (w : O3SerialWriter) (W : World)
    (s : string) (Hfree : nul_free s = true)
    (Hlp : length (prefixBuffer w) = prefixMaxLen)
    (Hls : length (partSeparatorBuffer w) = partSepMaxLen) :
  ((length (chars s) <= 31)%nat ->
     exists buf,
       setPrefix (Some s) (mkMachine w W)
       = Some (tt, mkMachine (set_prefixBuffer buf w) W)
       /\ c_str buf = Some s)
  /\ ((1 <= length (chars s) <= 7)%nat ->
        exists buf,
          setPartSeparator (Some s) (mkMachine w W)
          = Some (tt, mkMachine (set_partSeparatorBuffer buf w) W)
          /\ c_str buf = Some s).
Proof.
  split.
  - intros Hfit.
    destruct (copyPrefix_run (Some s) w W Hlp) as (buf & Hrun & _ & Hstr).
    exists buf. split; [exact Hrun|]. rewrite Hstr.
    unfold prefix_arg. rewrite until_nul_free by done.
    by rewrite truncate_all by (unfold prefixMaxLen; lia).
  - intros Hfit.
    destruct (copyPartSeparator_run (Some s) w W Hls)
      as (buf & Hrun & _ & Hstr).
    exists buf. split; [exact Hrun|]. rewrite Hstr.
    assert (Harg : separator_arg (Some s) = s).
    { destruct s as [|c s]; simpl in *; [lia|].
      apply andb_prop in Hfree as [Hc _].
      apply negb_true_iff in Hc. by rewrite Hc. }
    rewrite Harg, until_nul_free by done.
    by rewrite truncate_all by (unfold partSepMaxLen; lia).
Qed.

Lemma X7_fitting_strings_round_trip_witness :
  let w := self midLine in
  let W := world midLine in
  exists buf,
    setPartSeparator (Some " | ") (mkMachine w W)
    = Some (tt, mkMachine (set_partSeparatorBuffer buf w) W)
    /\ c_str buf = Some " | ".
Proof.
  intros w W.
  destruct (X7_fitting_strings_round_trip w W " | " eq_refl eq_refl eq_refl)
    as (_ & Hsep).
  apply Hsep. simpl. lia.
Defined.

(** X8. The gate is a threshold.  If a level passes the gate, every higher
    level passes it too; and lowering the threshold of a writer whose
    threshold is a [uint8_t] value never stops a level that passed. *)
Theorem X8_gate_monotone (w : O3SerialWriter) (level : O3LogLevel.t)
    (Hcan : canWrite w level = true) :
  (forall level', level <= level' -> canWrite w level' = true)
  /\ (O3LogLevel.is_uint8 (minLevel w) ->
      forall lower, lower <= minLevel w ->
                    canWrite (set_minLevel lower w) level = true).
Proof.
  destruct (canWrite_true_inv _ _ Hcan) as (Hen & Hatt & Hne & Hle).
  split.
  - intros level' Hup. unfold canWrite. rewrite Hen. simpl.
    rewrite bool_decide_eq_true_2 by done. simpl.
    destruct (Z.eqb_spec (minLevel w) O3LogLevel.None); [done|].
    apply Z.geb_le. lia.
  - intros Hu8 lower Hlow. unfold canWrite. simpl. rewrite Hen. simpl.
    rewrite bool_decide_eq_true_2 by done. simpl.
    unfold O3LogLevel.is_uint8, O3LogLevel.None in *.
    destruct (Z.eqb_spec lower 255); [lia|].
    apply Z.geb_le. lia.
Qed.

Lemma X8_gate_monotone_witness :
  let w := set_minLevel O3LogLevel.Warn (self attachedDefault) in
  canWrite w O3LogLevel.Error = true
  /\ canWrite (set_minLevel O3LogLevel.Debug w) O3LogLevel.Warn = true.
Proof.
  intros w.
  destruct (X8_gate_monotone w O3LogLevel.Warn eq_refl) as (Hup & Hdown).
  split.
  - apply Hup. unfold O3LogLevel.Warn, O3LogLevel.Error. lia.
  - apply Hdown.
    + vm_compute. split; discriminate.
    + vm_compute. discriminate.
Defined.

End Switches.

(** ** Counting lines *)

Section Lines.

Implicit Types (w : O3SerialWriter) (W : World) (level : O3LogLevel.t).

Lemma count_println_app (cs1 cs2 : list SinkCall) :
  count_println (cs1 ++ cs2) = (count_println cs1 + count_println cs2)%nat.
Proof. unfold count_println. by rewrite List.filter_app, length_app. Qed.

Lemma count_println_header pfx sm sl t level :
  count_println (header_spec pfx sm sl t level) = 0%nat.
Proof. by destruct pfx, sm, sl. Qed.

Lemma count_println_join sep first rest :
  count_println (join_spec sep first rest) = 0%nat.
Proof.
  unfold join_spec, count_println. simpl.
  induction rest as [|r rest IH]; [done|]. simpl. exact IH.
Qed.

Lemma passes_closed w c : passes (closed w) c = passes w c.
Proof. by destruct w. Qed.

Lemma filter_passes_closed w (cs : list Call) :
  List.filter (passes (closed w)) cs = List.filter (passes w) cs.
Proof. apply List.filter_ext. intros c. apply passes_closed. Qed.

(** A message logged on a closed line: nothing when the gate refuses, a
    whole line with one line break otherwise. *)
Lemma line_step level message w W p pfx :
  lineOpen w = false -> out w = Some p ->
  c_str (prefixBuffer w) = Some pfx ->
  exists w' W' o,
    line level message (mkMachine w W) = Some (tt, mkMachine w' W')
    /\ (w' = w \/ w' = closed w)
    /\ written W' p = written W p ++ o
    /\ count_println o = (if canWrite w level then 1 else 0)%nat.
Proof.
  intros Hclosed Hout Hpfx. destruct (canWrite w level) eqn:Hcan.
  - rewrite (line_run _ _ _ _ p pfx) by done.
    do 3 eexists. split; [done|]. split; [by right|].
    split; [apply written_emit_eq|].
    rewrite ensure_calls_closed by done.
    by rewrite count_println_app, count_println_header.
  - destruct (gated_noop w W level Hcan) as (Hn & _). rewrite Hn.
    exists w, W, []. split; [done|]. split; [by left|].
    by rewrite app_nil_r.
Qed.

Lemma parts_step level first rest w W p pfx sep :
  lineOpen w = false -> out w = Some p ->
  c_str (prefixBuffer w) = Some pfx ->
  c_str (partSeparatorBuffer w) = Some sep ->
  exists w' W' o,
    parts level first rest (mkMachine w W) = Some (tt, mkMachine w' W')
    /\ (w' = w \/ w' = closed w)
    /\ written W' p = written W p ++ o
    /\ count_println o = (if canWrite w level then 1 else 0)%nat.
Proof.
  intros Hclosed Hout Hpfx Hsep. destruct (canWrite w level) eqn:Hcan.
  - rewrite (parts_run _ _ _ _ _ p pfx sep) by done.
    do 3 eexists. split; [done|]. split; [by right|].
    split; [apply written_emit_eq|].
    rewrite ensure_calls_closed by done.
    by rewrite !count_println_app, count_println_header, count_println_join.
  - destruct (gated_noop w W level Hcan) as (_ & Hn & _). rewrite Hn.
    exists w, W, []. split; [done|]. split; [by left|].
    by rewrite app_nil_r.
Qed.

Lemma log_calls_run p pfx sep cs :
  forall w W,
    lineOpen w = false -> out w = Some p ->
    c_str (prefixBuffer w) = Some pfx ->
    c_str (partSeparatorBuffer w) = Some sep ->
    Forall (fun c => is_Some (log_level c)) cs ->
    exists w' W' o,
      run cs (mkMachine w W) = Some (tt, mkMachine w' W')
      /\ (w' = w \/ w' = closed w)
      /\ written W' p = written W p ++ o
      /\ count_println o = length (List.filter (passes w) cs).
Proof.
  induction cs as [|c cs IH]; intros w W Hclosed Hout Hpfx Hsep Hlog.
  - exists w, W, []. split; [done|]. split; [by left|].
    by rewrite app_nil_r.
  - apply Forall_cons in Hlog as [Hc Hlog].
    assert (Hstep : exists w1 W1 o1,
      call c (mkMachine w W) = Some (tt, mkMachine w1 W1)
      /\ (w1 = w \/ w1 = closed w)
      /\ written W1 p = written W p ++ o1
      /\ count_println o1 = (if passes w c then 1 else 0)%nat).
    { destruct c; simpl in Hc; try (by destruct Hc as [? [=]]);
        unfold passes; simpl;
        first [ by apply (line_step _ _ _ _ p pfx)
              | by apply (parts_step _ _ _ _ _ p pfx sep) ]. }
    destruct Hstep as (w1 & W1 & o1 & Hcall & Hw1 & Hwr1 & Hn1).
    assert (Hkeep : lineOpen w1 = false /\ out w1 = Some p
                    /\ c_str (prefixBuffer w1) = Some pfx
                    /\ c_str (partSeparatorBuffer w1) = Some sep
                    /\ List.filter (passes w1) cs = List.filter (passes w) cs
                    /\ (closed w1 = closed w)).
    { destruct Hw1 as [->| ->]; [done|].
      rewrite filter_passes_closed. by destruct w. }
    destruct Hkeep as (Hc1 & Ho1 & Hp1 & Hs1 & Hf1 & Hcl1).
    destruct (IH w1 W1 Hc1 Ho1 Hp1 Hs1 Hlog)
      as (w' & W' & o & Hrun & Hw' & Hwr & Hn).
    exists w', W', (o1 ++ o). split; [|split; [|split]].
    + simpl. unfold mbind, M_bind. by rewrite Hcall.
    + destruct Hw' as [->| ->]; [done|]. right. done.
    + by rewrite Hwr, Hwr1, <- app_assoc.
    + rewrite count_println_app, Hn, Hn1, Hf1. simpl.
      by destruct (passes w c).
Qed.

(** X9. One log call, one line.  In a sketch that, with no line open, only
    uses the one-call log methods ([debug], [info], [warn], [error], with a
    message or with parts), the stream gets exactly as many line breaks as
    there are calls the gate lets through, and no line is left open. *)
Theorem X9_one_line_per_log_call (w : O3SerialWriter) (W : World)
    (cs : list Call) (p : nat) (pfx sep : string)
    (Hclosed : lineOpen w = false) (Hout : out w = Some p)
    (Hpfx : c_str (prefixBuffer w) = Some pfx)
    (Hsep : c_str (partSeparatorBuffer w) = Some sep)
    (Hlog : Forall (fun c => is_Some (log_level c)) cs) :
  exists m',
    run cs (mkMachine w W) = Some (tt, m')
    /\ lineOpen (self m') = false
    /\ count_println (output_since p (mkMachine w W) m')
       = length (List.filter (passes w) cs).
Proof.
  destruct (log_calls_run p pfx sep cs w W Hclosed Hout Hpfx Hsep Hlog)
    as (w' & W' & o & Hrun & Hw' & Hwr & Hn).
  exists (mkMachine w' W'). split; [done|]. split.
  - simpl. destruct Hw' as [->| ->]; [done | by destruct w].
  - unfold output_since. simpl. by rewrite Hwr, drop_app_length.
Qed.

Lemma X9_one_line_per_log_call_witness :
  let w := set_minLevel O3LogLevel.Warn (self attachedDefault) in
  exists m',
    run [CInfo "Boot"; CWarnParts (PStr "HTTP") [PNum 503];
         CDebug "x"; CError "down"] (mkMachine w emptyWorld)
    = Some (tt, m')
    /\ lineOpen (self m') = false
    /\ count_println (output_since 0 (mkMachine w emptyWorld) m') = 2%nat.
Proof.
  intros w.
  apply (X9_one_line_per_log_call w emptyWorld
           [CInfo "Boot"; CWarnParts (PStr "HTTP") [PNum 503];
            CDebug "x"; CError "down"] 0%nat EmptyString " ");
    try reflexivity.
  repeat (apply List.Forall_cons; [eexists; reflexivity|]).
  apply List.Forall_nil.
Defined.

Lemma count_println_levels_trace header prev steps :
  (forall l, count_println (header l) = 0%nat) ->
  count_println (levels_trace header prev steps)
  = level_changes (prev :: map fst steps).
Proof.
  intros Hheader. revert prev.
  induction steps as [|[l v] steps IH]; intros prev; [done|].
  cbn [levels_trace map fst snd level_changes].
  rewrite !count_println_app, IH.
  destruct (Z.eqb_spec prev l) as [He|Hne]; [done|].
  change (count_println (Println :: header l))
    with (S (count_println (header l))).
  by rewrite Hheader.
Qed.

(** Values printed on an open line, each at its own level: the stream gets
    the trace the levels call for. *)
Lemma printAll_open p pfx steps :
  forall w W,
    lineOpen w = true -> out w = Some p ->
    c_str (prefixBuffer w) = Some pfx ->
    Forall (fun s => canWrite w (fst s) = true) steps ->
    exists w' W',
      run (printAll steps) (mkMachine w W) = Some (tt, mkMachine w' W')
      /\ lineOpen w' = true
      /\ written W' p
         = written W p
           ++ levels_trace
                (header_spec pfx (showMillis w) (showLevel w) (clock W))
                (activeLevel w) steps.
Proof.
  induction steps as [|[l v] steps IH]; intros w W Hopen Hout Hpfx Hcan.
  - exists w, W. split; [done|]. split; [done|].
    by rewrite app_nil_r.
  - apply Forall_cons in Hcan as [Hc Hcan]. simpl in Hc.
    destruct (IH (opened l w)
                (emit p (ensure_calls w pfx (clock W) l ++ [Print v]) W))
      as (w' & W' & Hrun & Hopen' & Hwr);
      [by destruct w | by destruct w | by destruct w | |].
    { eapply Forall_impl; [exact Hcan|]. intros s Hs.
      by rewrite canWrite_opened. }
    exists w', W'. split; [|split; [exact Hopen'|]].
    + simpl. unfold mbind at 1, M_bind at 1.
      rewrite (printWithLevel_run l v w W p pfx) by done. exact Hrun.
    + rewrite Hwr, written_emit_eq, clock_emit.
      assert (Hsame :
        header_spec pfx (showMillis (opened l w)) (showLevel (opened l w))
          (clock W)
        = header_spec pfx (showMillis w) (showLevel w) (clock W))
        by (by destruct w).
      assert (Hact : activeLevel (opened l w) = l) by (by destruct w).
      rewrite Hsame, Hact. cbn [levels_trace fst snd].
      rewrite <- !app_assoc. f_equal.
      destruct (Z.eqb_spec (activeLevel w) l) as [He|Hne].
      * by rewrite ensure_calls_same.
      * by rewrite ensure_calls_other by congruence.
Qed.

(** X11. A line break at every change of level, and nowhere else.  A
    sketch that starts with no line open and prints a list of values with
    [printWithLevel], each at a level the gate lets through, sends to the
    stream exactly this: the header of the first level and the first
    value; then, for every further value, the value alone when its level is
    that of the value before, and a line break, the header of its level and
    the value when its level differs.  So the line breaks are as many as
    the places in the list where the level differs from the one before,
    each right after the last value of the old level and right before the
    header of the new one.  The sketch is left with a line open. *)
Theorem X11_line_break_per_level_change (w : O3SerialWriter) (W : World)
    (steps : list (O3LogLevel.t * Printable)) (p : nat) (pfx : string)
    (Hclosed : lineOpen w = false) (Hout : out w = Some p)
    (Hpfx : c_str (prefixBuffer w) = Some pfx)
    (Hcan : Forall (fun s => canWrite w (fst s) = true) steps) :
  exists m',
    run (printAll steps) (mkMachine w W) = Some (tt, m')
    /\ output_since p (mkMachine w W) m'
       = printAll_trace
           (header_spec pfx (showMillis w) (showLevel w) (clock W)) steps
    /\ count_println (output_since p (mkMachine w W) m')
       = level_changes (map fst steps)
    /\ (steps <> [] -> lineOpen (self m') = true).
Proof.
  destruct steps as [|[l v] steps].
  - exists (mkMachine w W). split; [done|].
    unfold output_since. simpl. by rewrite drop_all.
  - apply Forall_cons in Hcan as [Hc Hcan]. simpl in Hc.
    destruct (printAll_open p pfx steps (opened l w)
                (emit p (ensure_calls w pfx (clock W) l ++ [Print v]) W))
      as (w' & W' & Hrun & Hopen' & Hwr);
      [by destruct w | by destruct w | by destruct w | |].
    { eapply Forall_impl; [exact Hcan|]. intros s Hs.
      by rewrite canWrite_opened. }
    assert (Hsame :
      header_spec pfx (showMillis (opened l w)) (showLevel (opened l w))
        (clock W)
      = header_spec pfx (showMillis w) (showLevel w) (clock W))
      by (by destruct w).
    assert (Hact : activeLevel (opened l w) = l) by (by destruct w).
    rewrite clock_emit, Hsame, Hact in Hwr.
    assert (Hout' :
      output_since p (mkMachine w W) (mkMachine w' W')
      = printAll_trace
          (header_spec pfx (showMillis w) (showLevel w) (clock W))
          ((l, v) :: steps)).
    { unfold output_since. simpl.
      rewrite Hwr, written_emit_eq, <- app_assoc, drop_app_length.
      rewrite ensure_calls_closed by done. by rewrite <- app_assoc. }
    exists (mkMachine w' W'). split; [|split; [exact Hout'|split; [|done]]].
    + simpl. unfold mbind at 1, M_bind at 1.
      rewrite (printWithLevel_run l v w W p pfx) by done. exact Hrun.
    + rewrite Hout'. unfold printAll_trace. cbn [fst snd].
      rewrite !count_println_app, count_println_header.
      rewrite count_println_levels_trace
        by (intros; apply count_println_header).
      done.
Qed.

Lemma X11_line_break_per_level_change_witness :
  exists m',
    run (printAll [(O3LogLevel.Info, PStr "a"); (O3LogLevel.Info, PStr "b");
                   (O3LogLevel.Warn, PStr "c"); (O3LogLevel.Info, PStr "d")])
      attachedDefault = Some (tt, m')
    /\ output_since 0 attachedDefault m'
       = [Print (PNum 0); Print (PChar " "); Print (PStr "INFO");
          Print (PStr ": "); Print (PStr "a"); Print (PStr "b"); Println;
          Print (PNum 0); Print (PChar " "); Print (PStr "WARN");
          Print (PStr ": "); Print (PStr "c"); Println;
          Print (PNum 0); Print (PChar " "); Print (PStr "INFO");
          Print (PStr ": "); Print (PStr "d")]
    /\ count_println (output_since 0 attachedDefault m') = 2%nat.
Proof.
  destruct (X11_line_break_per_level_change
              (self attachedDefault) (world attachedDefault)
              [(O3LogLevel.Info, PStr "a"); (O3LogLevel.Info, PStr "b");
               (O3LogLevel.Warn, PStr "c"); (O3LogLevel.Info, PStr "d")]
              0%nat EmptyString eq_refl eq_refl eq_refl)
    as (m' & Hrun & Hout & Hn & _).
  { repeat (apply List.Forall_cons; [reflexivity|]). apply List.Forall_nil. }
  exists m'. split; [exact Hrun|]. split; [exact Hout | exact Hn].
Defined.

End Lines.

(** ** Variadic calls and manual assembly *)

Section Manual.

Implicit Types (w : O3SerialWriter) (W : World).

Lemma print_gated value w W :
  canWrite w (defaultLevel w) = false ->
  print value (mkMachine w W) = Some (tt, mkMachine w W).
Proof.
  intros Hcan. destruct (gated_noop w W _ Hcan) as (_ & _ & Hn & _).
  apply Hn.
Qed.

Lemma printEach_gated sep rest w W :
  canWrite w (defaultLevel w) = false ->
  printEach sep rest (mkMachine w W) = Some (tt, mkMachine w W).
Proof.
  intros Hcan. induction rest as [|r rest IH]; [done|].
  simpl. unfold mbind at 1, M_bind at 1. rewrite print_gated by done.
  unfold mbind at 1, M_bind at 1. rewrite print_gated by done.
  exact IH.
Qed.

(** Values printed one after the other on a line open at the default
    level: no header, no line break. *)
Lemma printEach_open sep rest p pfx w :
  lineOpen w = true -> activeLevel w = defaultLevel w ->
  canWrite w (defaultLevel w) = true -> out w = Some p ->
  c_str (prefixBuffer w) = Some pfx ->
  forall W,
    printEach sep rest (mkMachine w W)
    = Some (tt, mkMachine w
                  (emit p (flat_map (fun v => [Print (PStr sep); Print v])
                             rest) W)).
Proof.
  intros Hopen Hact Hcan Hout Hpfx.
  assert (Hprint : forall value W,
    print value (mkMachine w W)
    = Some (tt, mkMachine w (emit p [Print value] W))).
  { intros value W.
    change (print value (mkMachine w W))
      with (printWithLevel (defaultLevel w) value (mkMachine w W)).
    rewrite (printWithLevel_run _ _ _ _ p pfx) by done.
    rewrite ensure_calls_same by done. by rewrite opened_same. }
  induction rest as [|r rest IH]; intros W; [done|].
  simpl. unfold mbind at 1, M_bind at 1. rewrite Hprint.
  unfold mbind at 1, M_bind at 1. rewrite Hprint.
  rewrite IH. by rewrite !emit_emit.
Qed.

(** X10. A variadic [info] call is the manual assembly it stands for.  On a
    writer whose default level is [Info], printing the first part with
    [print], then the separator text and the next part for every further
    part, then calling the bare [println], leaves the writer and every
    stream exactly as [info(first, rest...)] does: the same header decision,
    the same calls on the stream, the same closed line, and nothing at all
    when the gate refuses [Info]. *)
Theorem X10_info_parts_is_manual_assembly (w : O3SerialWriter) (W : World)
    (first : Printable) (rest : list Printable) (sep : string)
    (Hdefault : defaultLevel w = O3LogLevel.Info)
    (Hpfx : is_Some (c_str (prefixBuffer w)))
    (Hsep : c_str (partSeparatorBuffer w) = Some sep) :
  printManually sep first rest (mkMachine w W)
  = infoParts first rest (mkMachine w W).
Proof.
  destruct Hpfx as [pfx Hpfx]. unfold printManually, infoParts.
  destruct (canWrite w O3LogLevel.Info) eqn:Hcan.
  - destruct (canWrite_true_inv _ _ Hcan) as (_ & [p Hout] & _).
    rewrite (parts_run _ _ _ _ _ p pfx sep) by done.
    unfold mbind at 1, M_bind at 1.
    change (print first (mkMachine w W))
      with (printWithLevel (defaultLevel w) first (mkMachine w W)).
    rewrite Hdefault.
    rewrite (printWithLevel_run _ _ _ _ p pfx) by done.
    set (w1 := opened O3LogLevel.Info w).
    assert (Hd1 : defaultLevel w1 = O3LogLevel.Info) by (by destruct w).
    assert (Hopen1 : lineOpen w1 = true) by (by destruct w).
    assert (Hact1 : activeLevel w1 = defaultLevel w1) by (by destruct w).
    assert (Hcan1 : canWrite w1 (defaultLevel w1) = true)
      by (by rewrite Hd1; unfold w1; rewrite canWrite_opened).
    assert (Hout1 : out w1 = Some p) by (by destruct w).
    assert (Hpfx1 : c_str (prefixBuffer w1) = Some pfx) by (by destruct w).
    unfold mbind at 1, M_bind at 1.
    rewrite (printEach_open sep rest p pfx w1) by done.
    rewrite (println0_run w1 _ p pfx) by done.
    rewrite ensure_calls_same by done.
    rewrite !emit_emit. unfold w1. rewrite closed_opened.
    unfold join_spec. simpl. by rewrite <- !app_assoc.
  - destruct (gated_noop w W _ Hcan) as (_ & Hn & _). rewrite Hn.
    rewrite <- Hdefault in Hcan.
    unfold mbind at 1, M_bind at 1. rewrite print_gated by done.
    unfold mbind at 1, M_bind at 1. rewrite printEach_gated by done.
    unfold println0. unfold mbind at 1, M_bind at 1, this at 1. simpl.
    by rewrite Hcan.
Qed.

Lemma X10_info_parts_is_manual_assembly_witness :
  let w := self midLine in
  let W := world midLine in
  printManually " " (PStr "Backoff") [PNum 250; PStr "ms"] (mkMachine w W)
  = infoParts (PStr "Backoff") [PNum 250; PStr "ms"] (mkMachine w W).
Proof.
  intros w W.
  apply (X10_info_parts_is_manual_assembly w W).
  - vm_compute. reflexivity.
  - exists EmptyString. vm_compute. reflexivity.
  - vm_compute. reflexivity.
Defined.

End Manual.
